(** * UniScann barcode detector: validators, cooldown gate, ledger statistics,
      scale search and box remapping, embedded from the Python sources. *)

From Stdlib Require Import ZArith NArith List Bool Lia String Ascii QArith.
From Stdlib Require Import Floats.SpecFloat.
From stdpp Require Import base option list gmap.
Import ListNotations.

#[local] Open Scope Z_scope.

(** ** Python values used by the sources *)

Module Py.

(** Exceptions that the modelled built-ins can raise. *)
Inductive exn : Type :=
| ValueError
| IndexError
| OverflowError
| ZeroDivisionError
| DecodeError.

(** Outcome of evaluating a Python expression: a value or a raised exception. *)
Inductive outcome (A : Type) : Type :=
| Return (a : A)
| Raise (e : exn).
Arguments Return {A} a.
Arguments Raise {A} e.

Definition bind {A B : Type} (r : outcome A) (k : A -> outcome B) : outcome B :=
  match r with
  | Return a => k a
  | Raise e => Raise e
  end.

Definition returns {A : Type} (r : outcome A) : Prop := exists a, r = Return a.

(** A [str] is a sequence of Unicode code points. *)
Definition str : Type := list N.

(** A literal written with ASCII characters only. *)
Fixpoint lit (s : string) : str :=
  match s with
  | EmptyString => []
  | String a s' => N_of_ascii a :: lit s'
  end.

Definition len (s : str) : Z := Z.of_nat (length s).

Fixpoint str_eqb (a b : str) : bool :=
  match a, b with
  | [], [] => true
  | x :: a', y :: b' => N.eqb x y && str_eqb a' b'
  | _, _ => false
  end.

(** [s[i]] for an integer index: negative indices count from the end,
    an index outside the string raises IndexError. *)
Definition getitem (s : str) (i : Z) : outcome N :=
  let j := if i <? 0 then i + len s else i in
  if (0 <=? j) && (j <? len s)
  then match nth_error s (Z.to_nat j) with
       | Some c => Return c
       | None => Raise IndexError
       end
  else Raise IndexError.

(** [s.startswith(prefix)] *)
Fixpoint startswith (s prefix : str) : bool :=
  match prefix, s with
  | [], _ => true
  | p :: prefix', c :: s' => N.eqb c p && startswith s' prefix'
  | _ :: _, [] => false
  end.

(** [range(start, stop, step)] for a positive step. *)
Definition range (start stop step : Z) : list Z :=
  map (fun k => start + step * Z.of_nat k)
      (seq 0 (Z.to_nat ((stop - start + step - 1) / step))).

(** *** Unicode numeric properties (Unicode 14.0 character database)

    Code points of the digit zero of every run of ten characters with
    Numeric_Type=Decimal (general category Nd). *)
Definition decimal_zeros : list N :=
  [ 0x30; 0x660; 0x6f0; 0x7c0; 0x966; 0x9e6; 0xa66; 0xae6; 0xb66; 0xbe6;
    0xc66; 0xce6; 0xd66; 0xde6; 0xe50; 0xed0; 0xf20; 0x1040; 0x1090;
    0x17e0; 0x1810; 0x1946; 0x19d0; 0x1a80; 0x1a90; 0x1b50; 0x1bb0;
    0x1c40; 0x1c50; 0xa620; 0xa8d0; 0xa900; 0xa9d0; 0xa9f0; 0xaa50;
    0xabf0; 0xff10; 0x104a0; 0x10d30; 0x11066; 0x110f0; 0x11136;
    0x111d0; 0x112f0; 0x11450; 0x114d0; 0x11650; 0x116c0; 0x11730;
    0x118e0; 0x11950; 0x11c50; 0x11d50; 0x11da0; 0x16a60; 0x16ac0;
    0x16b50; 0x1d7ce; 0x1d7d8; 0x1d7e2; 0x1d7ec; 0x1d7f6; 0x1e140;
    0x1e2f0; 0x1e950; 0x1fbf0 ]%N.

(** Runs [(first, last, value of first)] of characters with
    Numeric_Type=Digit: superscripts, subscripts, circled digits and the
    like.  They are digits for [str.isdigit] but not decimal characters. *)
Definition digit_runs : list (N * N * N) :=
  [ (0xb2, 0xb3, 2); (0xb9, 0xb9, 1); (0x1369, 0x1371, 1);
    (0x19da, 0x19da, 1); (0x2070, 0x2070, 0); (0x2074, 0x2079, 4);
    (0x2080, 0x2089, 0); (0x2460, 0x2468, 1); (0x2474, 0x247c, 1);
    (0x2488, 0x2490, 1); (0x24ea, 0x24ea, 0); (0x24f5, 0x24fd, 1);
    (0x24ff, 0x24ff, 0); (0x2776, 0x277e, 1); (0x2780, 0x2788, 1);
    (0x278a, 0x2792, 1); (0x10a40, 0x10a43, 1); (0x10e60, 0x10e68, 1);
    (0x11052, 0x1105a, 1); (0x1f100, 0x1f100, 0); (0x1f101, 0x1f10a, 0) ]%N.

(** Decimal value of a character, when it is a decimal character. *)
Definition to_decimal (c : N) : option Z :=
  match find (fun z => (z <=? c)%N && (c <? z + 10)%N) decimal_zeros with
  | Some z => Some (Z.of_N (c - z))
  | None => None
  end.

(** Digit value of a character, when it is a digit. *)
Definition to_digit (c : N) : option Z :=
  match to_decimal c with
  | Some d => Some d
  | None =>
      match find (fun r => (fst (fst r) <=? c)%N && (c <=? snd (fst r))%N)
                 digit_runs with
      | Some r => Some (Z.of_N (snd r + (c - fst (fst r))))
      | None => None
      end
  end.

Definition is_decimal_char (c : N) : bool :=
  match to_decimal c with Some _ => true | None => false end.

Definition is_digit_char (c : N) : bool :=
  match to_digit c with Some _ => true | None => false end.

(** [s.isdigit()]: at least one character and all characters are digits. *)
Definition isdigit (s : str) : bool :=
  match s with
  | [] => false
  | _ :: _ => forallb is_digit_char s
  end.

(** [int(s)] for a string [s] of exactly one character, as produced by
    [code[i]]: the decimal value of a decimal character, ValueError for
    every other character. *)
Definition int_of_char (c : N) : outcome Z :=
  match to_decimal c with
  | Some d => Return d
  | None => Raise ValueError
  end.

(** [sum(f(i) for i in indices)]: the generator is consumed in order and
    the first exception ends the summation. *)
Fixpoint sum_from (acc : Z) (f : Z -> outcome Z) (indices : list Z) : outcome Z :=
  match indices with
  | [] => Return acc
  | i :: rest => bind (f i) (fun v => sum_from (acc + v) f rest)
  end.

Definition sum_gen (f : Z -> outcome Z) (indices : list Z) : outcome Z :=
  sum_from 0 f indices.

End Py.

Import Py.

Notation "x <- c1 ;; c2" := (Py.bind c1 (fun x => c2))
  (at level 100, c1 at next level, right associativity).

Arguments Py.to_decimal : simpl never.
Arguments Py.to_digit : simpl never.

(** ** detector/validator.py *)

Module BarcodeValidator.

Definition is_valid_ean13 (code : str) : outcome bool :=
  if negb (len code =? 13) then Return false
  else if negb (isdigit code) then Return false
  else
    odd_sum <- sum_gen (fun i => c <- getitem code i ;; int_of_char c) (range 0 12 2) ;;
    even_sum <- sum_gen (fun i => c <- getitem code i ;; int_of_char c) (range 1 12 2) ;;
    let checksum := (10 - ((odd_sum + even_sum * 3) mod 10)) mod 10 in
    c12 <- getitem code 12 ;;
    d12 <- int_of_char c12 ;;
    Return (checksum =? d12).

Definition is_valid_upca (code : str) : outcome bool :=
  if negb (len code =? 12) then Return false
  else if negb (isdigit code) then Return false
  else
    odd_sum <- sum_gen (fun i => c <- getitem code i ;; int_of_char c) (range 0 11 2) ;;
    even_sum <- sum_gen (fun i => c <- getitem code i ;; int_of_char c) (range 1 11 2) ;;
    let checksum := (10 - ((odd_sum * 3 + even_sum) mod 10)) mod 10 in
    c11 <- getitem code 11 ;;
    d11 <- int_of_char c11 ;;
    Return (checksum =? d11).

(** The [validators] dictionary, looked up with [validators.get(code_type)]. *)
Definition validators (code_type : str) : option (str -> outcome bool) :=
  if str_eqb code_type (lit "EAN13") then Some is_valid_ean13
  else if str_eqb code_type (lit "UPCA") then Some is_valid_upca
  else if str_eqb code_type (lit "CODE128") then Some (fun _ => Return true)
  else None.

Definition validate_code (code code_type : str) : outcome bool :=
  match validators code_type with
  | Some validator => validator code
  | None => Return true
  end.

Definition pharmaceutical_types : list str :=
  [lit "EAN13"; lit "UPCA"; lit "CODE128"].

Definition pharma_prefixes : list str :=
  [lit "84"; lit "76"; lit "77"; lit "80"; lit "81"; lit "82"; lit "83"].

Definition is_pharmaceutical_code (code code_type : str) : bool :=
  if negb (existsb (str_eqb code_type) pharmaceutical_types) then false
  else if str_eqb code_type (lit "EAN13") && (len code =? 13)
  then existsb (fun prefix => startswith code prefix) pharma_prefixes
  else true.

End BarcodeValidator.

(** ** Python floats: IEEE 754 binary64 *)

Module Float64.

Definition prec : Z := 53.
Definition emax : Z := 1024.

Definition float : Type := spec_float.

Definition mul : float -> float -> float := SFmul prec emax.
Definition div : float -> float -> float := SFdiv prec emax.
Definition eqb : float -> float -> bool := SFeqb.
Definition ltb : float -> float -> bool := SFltb.

Definition is_zero (f : float) : bool :=
  match f with S754_zero _ => true | _ => false end.

(** The float literals of config.py, by sign, mantissa and exponent. *)
Definition f1_0 : float := S754_finite false 0x10000000000000 (-52).
Definition f1_2 : float := S754_finite false 0x13333333333333 (-52).
Definition f0_8 : float := S754_finite false 0x1999999999999a (-53).
Definition f1_4 : float := S754_finite false 0x16666666666666 (-52).
Definition f2_0 : float := S754_finite false 0x10000000000000 (-51).

(** Conversion of an [int] to [float]: round to nearest even. *)
Definition of_int_raw (z : Z) : float := binary_normalize prec emax z 0 false.

Definition of_int (z : Z) : outcome float :=
  match of_int_raw z with
  | S754_infinity _ => Raise OverflowError
  | f => Return f
  end.

(** [a / b] on two ints: the correctly rounded quotient. *)
Definition int_exact (z : Z) : float :=
  match z with
  | Z0 => S754_zero false
  | Zpos p => S754_finite false p 0
  | Zneg p => S754_finite true p 0
  end.

Definition int_truediv_raw (a b : Z) : float := div (int_exact a) (int_exact b).

Definition int_truediv (a b : Z) : outcome float :=
  if b =? 0 then Raise ZeroDivisionError
  else match int_truediv_raw a b with
       | S754_infinity _ => Raise OverflowError
       | f => Return f
       end.

(** [x / s] with [x] an int and [s] a float. *)
Definition int_div_float (x : Z) (s : float) : outcome float :=
  fx <- of_int x ;;
  if is_zero s then Raise ZeroDivisionError else Return (div fx s).

(** [x * s] with [x] an int and [s] a float. *)
Definition int_mul_float (x : Z) (s : float) : outcome float :=
  fx <- of_int x ;; Return (mul fx s).

(** [int(f)]: truncation toward zero. *)
Definition to_int (f : float) : outcome Z :=
  match f with
  | S754_zero _ => Return 0
  | S754_nan => Raise ValueError
  | S754_infinity _ => Raise OverflowError
  | S754_finite s m e =>
      let a := Z.shiftl (Zpos m) e in
      Return (if s then - a else a)
  end.

(** The rational number a finite float stands for. *)
Definition to_Q (f : float) : Q :=
  match f with
  | S754_finite s m e =>
      let q := match e with
               | Zneg p => Qmake (Zpos m) (2 ^ p)%positive
               | _ => inject_Z (Zpos m * 2 ^ e)
               end in
      if s then Qopp q else q
  | _ => 0%Q
  end.

End Float64.

(** ** storage/codeStorage.py *)

Module CodeStorage.

(** One entry of [detected_codes].  The entries are dictionaries read
    with [get] and a default, so the keys read that way may be absent. *)
Record detection_info : Type := mk_info {
  codigo : str;
  tipo : option str;
  timestamp : str;
  valido : option bool;
  es_farmaceutico : option bool
}.

(** The object state.  A [datetime] is its number of microseconds. *)
Record t : Type := mk {
  detected_codes : list detection_info;
  last_barcode : option str;
  last_detection_time : option Z;
  cooldown_seconds : Float64.float
}.

(** [__init__], with DETECTION_CONFIG['cooldown_seconds'] = 2.0. *)
Definition init : t :=
  {| detected_codes := []; last_barcode := None;
     last_detection_time := None; cooldown_seconds := Float64.f2_0 |}.

(** [timedelta.total_seconds()]: the microseconds divided by 10**6. *)
Definition total_seconds (microseconds : Z) : Float64.float :=
  Float64.int_truediv_raw microseconds (10 ^ 6).

(** [self.last_barcode != barcode_data] *)
Definition barcode_differs (last : option str) (barcode_data : str) : bool :=
  match last with
  | None => true
  | Some b => negb (str_eqb b barcode_data)
  end.

(** [(current_time - self.last_detection_time).total_seconds() > self.cooldown_seconds] *)
Definition cooldown_elapsed (self : t) (last_time current_time : Z) : bool :=
  Float64.ltb (cooldown_seconds self) (total_seconds (current_time - last_time)).

Definition should_process_detection (self : t) (barcode_data : str) (current_time : Z)
  : bool * t :=
  if barcode_differs (last_barcode self) barcode_data
     || match last_detection_time self with
        | None => true
        | Some last_time => cooldown_elapsed self last_time current_time
        end
  then (true, {| detected_codes := detected_codes self;
                 last_barcode := Some barcode_data;
                 last_detection_time := Some current_time;
                 cooldown_seconds := cooldown_seconds self |})
  else (false, self).

Definition _is_pharmaceutical_type (code_type : str) : bool :=
  existsb (str_eqb code_type) [lit "EAN13"; lit "UPCA"; lit "CODE128"].

(** [extra_info] is a dictionary merged into the new entry with [update];
    it is given here as the update it performs on the entry. *)
Definition add_detected_code (self : t) (code_data code_type : str) (is_valid : bool)
    (extra_info : option (detection_info -> detection_info)) (now_text : str)
  : detection_info * t :=
  let detection_info0 :=
    {| codigo := code_data; tipo := Some code_type; timestamp := now_text;
       valido := Some is_valid;
       es_farmaceutico := Some (_is_pharmaceutical_type code_type) |} in
  let detection_info1 :=
    match extra_info with
    | Some update => update detection_info0
    | None => detection_info0
    end in
  (detection_info1,
   {| detected_codes := detected_codes self ++ [detection_info1];
      last_barcode := last_barcode self;
      last_detection_time := last_detection_time self;
      cooldown_seconds := cooldown_seconds self |}).

(** A Python number: [0] is an int, [valid / total] a float. *)
Inductive number : Type :=
| Int (z : Z)
| Float (f : Float64.float).

Record statistics : Type := mk_statistics {
  total : Z;
  valid : Z;
  invalid : Z;
  pharmaceutical : Z;
  non_pharmaceutical : Z;
  types_distribution : gmap (list N) Z;
  detection_rate : number
}.

(** [code.get(key, False)] *)
Definition get_flag (flag : option bool) : bool :=
  match flag with Some b => b | None => false end.

(** [code.get('tipo', 'Unknown')] *)
Definition get_tipo (code : detection_info) : str :=
  match tipo code with Some s => s | None => lit "Unknown" end.

(** One iteration of the counting loop:
    [types_count[code_type] = types_count.get(code_type, 0) + 1]. *)
Definition count_type (types_count : gmap (list N) Z) (code : detection_info)
  : gmap (list N) Z :=
  let code_type := get_tipo code in
  <[code_type := match types_count !! code_type with Some n => n | None => 0 end + 1]>
    types_count.

Definition get_statistics (self : t) : statistics :=
  let total := Z.of_nat (length (detected_codes self)) in
  let valid :=
    Z.of_nat (length (List.filter (fun code => get_flag (valido code)) (detected_codes self))) in
  let pharmaceutical :=
    Z.of_nat (length (List.filter (fun code => get_flag (es_farmaceutico code))
                                  (detected_codes self))) in
  let types_count := fold_left count_type (detected_codes self) ∅ in
  {| total := total;
     valid := valid;
     invalid := total - valid;
     pharmaceutical := pharmaceutical;
     non_pharmaceutical := total - pharmaceutical;
     types_distribution := types_count;
     detection_rate :=
       if total >? 0 then Float (Float64.int_truediv_raw valid total) else Int 0 |}.

Definition clear_history (self : t) : t :=
  {| detected_codes := []; last_barcode := None; last_detection_time := None;
     cooldown_seconds := cooldown_seconds self |}.

(** [get_detected_codes]: the entries, optionally filtered on the two flags. *)
Definition get_detected_codes (self : t) (filter_valid filter_pharmaceutical : option bool)
  : list detection_info :=
  let codes := detected_codes self in
  let codes :=
    match filter_valid with
    | Some wanted =>
        List.filter (fun code => Bool.eqb (get_flag (valido code)) wanted) codes
    | None => codes
    end in
  let codes :=
    match filter_pharmaceutical with
    | Some wanted =>
        List.filter (fun code => Bool.eqb (get_flag (es_farmaceutico code)) wanted) codes
    | None => codes
    end in
  codes.

(** The dictionary [code_counts] of [find_duplicates], with its keys in
    insertion order.  One iteration of the first loop: append to the list
    of a known code, or add the code with a one-element list. *)
Fixpoint code_counts_add (code_counts : list (str * list detection_info))
    (code_info : detection_info) : list (str * list detection_info) :=
  match code_counts with
  | [] => [(codigo code_info, [code_info])]
  | (code, occurrences) :: rest =>
      if str_eqb code (codigo code_info)
      then (code, occurrences ++ [code_info]) :: rest
      else (code, occurrences) :: code_counts_add rest code_info
  end.

(** An entry of the list returned by [find_duplicates]. *)
Record duplicate : Type := mk_duplicate {
  dup_codigo : str;
  dup_count : Z;
  dup_occurrences : list detection_info
}.

(** One iteration of the second loop of [find_duplicates]. *)
Definition duplicates_add (duplicates : list duplicate)
    (item : str * list detection_info) : list duplicate :=
  let '(code, occurrences) := item in
  if Z.of_nat (length occurrences) >? 1
  then duplicates ++ [ {| dup_codigo := code;
                          dup_count := Z.of_nat (length occurrences);
                          dup_occurrences := occurrences |} ]
  else duplicates.

Definition find_duplicates (self : t) : list duplicate :=
  let code_counts := fold_left code_counts_add (detected_codes self) [] in
  fold_left duplicates_add code_counts [].

End CodeStorage.

(** ** External collaborators: OpenCV, pyzbar and the codec *)

(** A decoded symbol as pyzbar returns it. *)
Record Decoded : Type := mk_decoded {
  data : list N;
  type : str;
  rect : Z * Z * Z * Z
}.

(** The library calls made by the detector.  [None]-free: a call that can
    fail returns an [outcome]. *)
Class Vision (image : Type) : Type := {
  cvtColor_gray : image -> image;
  clahe_apply : image -> image;
  adaptiveThreshold : image -> image;
  morphologyEx_close : image -> image;
  bilateralFilter : image -> image;
  has_three_axes : image -> bool;
  shape : image -> Z * Z;
  resize : image -> Z -> Z -> outcome image;
  pyzbar_decode : image -> outcome (list Decoded);
  decode_utf8 : list N -> outcome str
}.

(** config.py *)
Module Config.

Definition scales : list Float64.float :=
  [Float64.f1_0; Float64.f1_2; Float64.f0_8; Float64.f1_4].

End Config.

(** ** utils/display.py *)

Module DisplayManager.

(** [int(v / scale_factor)] *)
Definition adjust (v : Z) (scale_factor : Float64.float) : outcome Z :=
  q <- Float64.int_div_float v scale_factor ;; Float64.to_int q.

(** The rectangle drawn by [draw_barcode_info]: the four assignments that
    follow [(x, y, w, h) = barcode.rect]. *)
Definition adjusted_rect (r : Z * Z * Z * Z) (scale_factor : Float64.float)
  : outcome (Z * Z * Z * Z) :=
  let '(x, y, w, h) := r in
  x' <- adjust x scale_factor ;;
  y' <- adjust y scale_factor ;;
  w' <- adjust w scale_factor ;;
  h' <- adjust h scale_factor ;;
  Return (x', y', w', h').

(** [draw_barcode_info]: the rectangle it draws and the pair it returns. *)
Definition draw_barcode_info `{Vision image} (barcode : Decoded)
    (scale_factor : Float64.float) : outcome ((Z * Z * Z * Z) * (str * str)) :=
  box <- adjusted_rect (rect barcode) scale_factor ;;
  barcode_value <- decode_utf8 (data barcode) ;;
  Return (box, (barcode_value, type barcode)).

End DisplayManager.

(** ** detector/imageProcessor.py *)

Module ImageProcessor.

Section WithVision.
Context `{Vision image}.

Definition preprocess_frame (frame : image) : image * list image :=
  let gray := cvtColor_gray frame in
  let enhanced := clahe_apply gray in
  let binary := adaptiveThreshold gray in
  let morph := morphologyEx_close binary in
  (frame, [frame; gray; enhanced; binary; morph]).

Definition apply_bilateral_filter (frame : image) : image :=
  let gray := if has_three_axes frame then cvtColor_gray frame else frame in
  bilateralFilter gray.

(** The body of the [try] block for one scale.  [Return None] is the
    [continue] taken when a resized dimension is not positive. *)
Definition decode_at_scale (filtered : image) (scale : Float64.float)
  : outcome (option (list Decoded)) :=
  if negb (Float64.eqb scale Float64.f1_0) then
    let '(height, width) := shape filtered in
    fw <- Float64.int_mul_float width scale ;;
    new_width <- Float64.to_int fw ;;
    fh <- Float64.int_mul_float height scale ;;
    new_height <- Float64.to_int fh ;;
    if (new_width >? 0) && (new_height >? 0) then
      scaled <- resize filtered new_width new_height ;;
      barcodes <- pyzbar_decode scaled ;;
      Return (Some barcodes)
    else Return None
  else
    barcodes <- pyzbar_decode filtered ;;
    Return (Some barcodes).

(** The [for scale in ...] loop.  Next to the returned pair it gives the
    scales whose iteration was entered, in order. *)
Fixpoint scale_loop (filtered : image) (scales : list Float64.float)
  : (list Decoded * Float64.float) * list Float64.float :=
  match scales with
  | [] => (([], Float64.f1_0), [])
  | scale :: rest =>
      match decode_at_scale filtered scale with
      | Return (Some (b :: barcodes)) => ((b :: barcodes, scale), [scale])
      | _ =>
          let '(found, tried) := scale_loop filtered rest in
          (found, scale :: tried)
      end
  end.

Definition detect_with_multiple_scales (frame : image)
  : (list Decoded * Float64.float) * list Float64.float :=
  let filtered := apply_bilateral_filter frame in
  scale_loop filtered Config.scales.

End WithVision.

(** The slice bounds of [enhance_barcode_region]:
    [((y_start, y_end), (x_start, x_end))] for a frame of the given
    [(height, width)]. *)
Definition enhance_barcode_region_bounds (frame_shape : Z * Z)
    (barcode_rect : Z * Z * Z * Z) : (Z * Z) * (Z * Z) :=
  let '(x, y, w, h) := barcode_rect in
  let padding := 10 in
  let x_start := Z.max 0 (x - padding) in
  let y_start := Z.max 0 (y - padding) in
  let x_end := Z.min (snd frame_shape) (x + w + padding) in
  let y_end := Z.min (fst frame_shape) (y + h + padding) in
  ((y_start, y_end), (x_start, x_end)).

End ImageProcessor.

(** ** detector/barcodeDetector.py *)

Module BarcodeDetector.

Section WithVision.
Context `{Vision image}.

(** The [for processed_frame in processed_frames] loop of
    [process_frame].  Next to [(barcodes, scale_factor)] it gives every
    (representation, scale) pair that was tried, in order. *)
Fixpoint frame_loop (processed_frames : list image)
  : (list Decoded * Float64.float) * list (image * Float64.float) :=
  match processed_frames with
  | [] => (([], Float64.f1_0), [])
  | processed_frame :: rest =>
      let '((detected_barcodes, detected_scale), tried) :=
        ImageProcessor.detect_with_multiple_scales processed_frame in
      let log := map (fun s => (processed_frame, s)) tried in
      match detected_barcodes with
      | _ :: _ => ((detected_barcodes, detected_scale), log)
      | [] =>
          let '(found, later) := frame_loop rest in
          (found, log ++ later)
      end
  end.

(** [process_frame] up to the end of the search. *)
Definition process_frame_search (frame : image)
  : (list Decoded * Float64.float) * list (image * Float64.float) :=
  let '(original_frame, processed_frames) := ImageProcessor.preprocess_frame frame in
  frame_loop processed_frames.

End WithVision.

(** [process_detected_code]: validate, classify and store. *)
Definition process_detected_code (storage : CodeStorage.t) (barcode_data barcode_type : str)
    (now_text : str) : outcome CodeStorage.t :=
  is_valid <- BarcodeValidator.validate_code barcode_data barcode_type ;;
  let is_pharmaceutical :=
    BarcodeValidator.is_pharmaceutical_code barcode_data barcode_type in
  let '(detection_info, storage') :=
    CodeStorage.add_detected_code storage barcode_data barcode_type is_valid
      (Some (fun d => {| CodeStorage.codigo := CodeStorage.codigo d;
                         CodeStorage.tipo := CodeStorage.tipo d;
                         CodeStorage.timestamp := CodeStorage.timestamp d;
                         CodeStorage.valido := CodeStorage.valido d;
                         CodeStorage.es_farmaceutico := Some is_pharmaceutical |}))
      now_text in
  Return storage'.

(** The recording step of [process_frame] for one symbol:
    [if self.storage.should_process_detection(barcode_value): ...]. *)
Definition record_detection (storage : CodeStorage.t) (barcode_value barcode_type : str)
    (current_time : Z) (now_text : str) : outcome CodeStorage.t :=
  let '(accepted, storage1) :=
    CodeStorage.should_process_detection storage barcode_value current_time in
  if accepted
  then process_detected_code storage1 barcode_value barcode_type now_text
  else Return storage1.

(** The part of the detector object that [handle_keyboard_input] reads and
    writes. *)
Record detector : Type := mk_detector {
  storage : CodeStorage.t;
  processing_mode : Z
}.

(** DETECTION_CONFIG['processing_modes'] *)
Definition processing_modes : list str :=
  [lit "Original"; lit "Escala de grises"; lit "Contraste mejorado";
   lit "Binarizaci" ++ [0xf3%N] ++ lit "n"; lit "Morfol" ++ [0xf3%N] ++ lit "gico"].

Definition ord (a : ascii) : Z := Z.of_N (N_of_ascii a).

(** [handle_keyboard_input]: whether to continue, and the detector after the
    key.  Printing and the export to a file leave the detector as it is. *)
Definition handle_keyboard_input (self : detector) (key : Z) : bool * detector :=
  if key =? ord "q" then (false, self)
  else if key =? ord "c" then
    (true, {| storage := CodeStorage.clear_history (storage self);
              processing_mode := processing_mode self |})
  else if key =? ord "s" then
    (true, {| storage := storage self;
              processing_mode := (processing_mode self + 1) mod Z.of_nat (length processing_modes) |})
  else if key =? ord "e" then (true, self)
  else if key =? ord "r" then (true, self)
  else (true, self).

End BarcodeDetector.

(** ** Reference formulas, as the specification words them *)

Module Spec.

(** The digit written at position [i] of [code] (0 when there is none). *)
Definition digit_at (code : str) (i : nat) : Z :=
  match nth_error code i with
  | Some c => match to_decimal c with Some d => d | None => 0 end
  | None => 0
  end.

(** Every character is a decimal digit. *)
Definition all_decimal_digits (code : str) : Prop :=
  Forall (fun c => is_decimal_char c = true) code.

(** EAN-13: sum of the digits at indices 0,2,...,10 plus three times the sum
    of the digits at indices 1,3,...,11, mod 10, negated mod 10. *)
Definition ean13_check_digit (code : str) : Z :=
  (10 - ((digit_at code 0 + digit_at code 2 + digit_at code 4 + digit_at code 6
          + digit_at code 8 + digit_at code 10)
         + 3 * (digit_at code 1 + digit_at code 3 + digit_at code 5 + digit_at code 7
                + digit_at code 9 + digit_at code 11)) mod 10) mod 10.

(** UPC-A: three times the sum of the digits at the odd positions (first,
    third, ..., eleventh: indices 0,2,...,10) plus the sum of the digits at
    the even positions (indices 1,3,...,9), mod 10, negated mod 10. *)
Definition upca_check_digit (code : str) : Z :=
  (10 - (3 * (digit_at code 0 + digit_at code 2 + digit_at code 4 + digit_at code 6
              + digit_at code 8 + digit_at code 10)
         + (digit_at code 1 + digit_at code 3 + digit_at code 5 + digit_at code 7
            + digit_at code 9)) mod 10) mod 10.

(** Number of elements of a list that satisfy a test. *)
Fixpoint count {A : Type} (test : A -> bool) (l : list A) : Z :=
  match l with
  | [] => 0
  | x :: l' => (if test x then 1 else 0) + count test l'
  end.

Definition flagged_valid (code : CodeStorage.detection_info) : bool :=
  CodeStorage.get_flag (CodeStorage.valido code).

Definition flagged_pharmaceutical (code : CodeStorage.detection_info) : bool :=
  CodeStorage.get_flag (CodeStorage.es_farmaceutico code).

Definition has_type (code_type : str) (code : CodeStorage.detection_info) : bool :=
  str_eqb (CodeStorage.get_tipo code) code_type.

(** The per-type count map: a type is a key exactly when some record has
    it, and it is mapped to the number of such records. *)
Definition type_count (codes : list CodeStorage.detection_info) (code_type : str)
  : option Z :=
  let n := count (has_type code_type) codes in
  if n =? 0 then None else Some n.

(** Integer part of a rational, toward zero. *)
Definition truncate (q : Q) : Z := Z.quot (Qnum q) (Zpos (Qden q)).

(** A coordinate divided by a scale, as an integer pixel coordinate. *)
Definition divided_coordinate (v : Z) (scale : Q) : Z :=
  truncate (inject_Z v / scale).

(** The configured scale factors with the decimal numbers they are
    written as. *)
Definition decimal_scales : list (Float64.float * Q) :=
  [ (Float64.f1_0, 1); (Float64.f1_2, 12 # 10); (Float64.f0_8, 8 # 10);
    (Float64.f1_4, 14 # 10) ]%Q.

(** The integers [start, start + 1, ...], [n] of them. *)
Fixpoint count_up (start : Z) (n : nat) : list Z :=
  match n with
  | O => []
  | S n' => start :: count_up (start + 1) n'
  end.

(** Coordinates [-bound < v < bound]. *)
Definition coordinates (bound : Z) : list Z :=
  count_up (1 - bound) (Z.to_nat (2 * bound - 1)).

(** [int(v / scale)] gives the divided coordinate for every listed [v]. *)
Definition adjust_agrees (bound : Z) (sq : Float64.float * Q) : bool :=
  forallb (fun v => match DisplayManager.adjust v (fst sq) with
                    | Return r => r =? divided_coordinate v (snd sq)
                    | Raise _ => false
                    end)
          (coordinates bound).

(** The ledger of the statistics example: a valid EAN13, an invalid EAN13
    and a CODE128, recorded in that order. *)
Definition example_ledger : outcome CodeStorage.t :=
  s1 <- BarcodeDetector.process_detected_code CodeStorage.init
          (lit "4006381333931") (lit "EAN13") (lit "2024-01-01 10:00:00") ;;
  s2 <- BarcodeDetector.process_detected_code s1
          (lit "4006381333932") (lit "EAN13") (lit "2024-01-01 10:00:05") ;;
  BarcodeDetector.process_detected_code s2
    (lit "ABC-123") (lit "CODE128") (lit "2024-01-01 10:00:09").

Section Search.
Context `{Vision image}.

(** The representation after the smoothing pass: reduced to one channel if
    it has three axes, then filtered. *)
Definition smoothed (representation : image) : image :=
  bilateralFilter
    (if has_three_axes representation then cvtColor_gray representation
     else representation).

(** The symbols of a decoder call; a call that fails gives none. *)
Definition symbols_of (decoded : outcome (list Decoded)) : list Decoded :=
  match decoded with
  | Return barcodes => barcodes
  | Raise _ => []
  end.

(** The size [(width, height)] of an image resized by a scale, when both
    dimensions can be computed and are positive. *)
Definition resized_size (filtered : image) (scale : Float64.float) : option (Z * Z) :=
  match (fw <- Float64.int_mul_float (snd (shape filtered)) scale ;; Float64.to_int fw),
        (fh <- Float64.int_mul_float (fst (shape filtered)) scale ;; Float64.to_int fh) with
  | Return new_width, Return new_height =>
      if (new_width >? 0) && (new_height >? 0) then Some (new_width, new_height) else None
  | _, _ => None
  end.

(** What the decoder yields for a representation at a scale.  At scale 1.0
    the decoder is run on the smoothed image; at another scale on the
    smoothed image resized by that scale, and the scale yields nothing when
    the resized size is not positive or the resizing fails.  A decoder call
    that fails yields nothing. *)
Definition yield (representation : image) (scale : Float64.float) : list Decoded :=
  let filtered := smoothed representation in
  if Float64.eqb scale Float64.f1_0 then symbols_of (pyzbar_decode filtered)
  else
    match resized_size filtered scale with
    | Some (new_width, new_height) =>
        match resize filtered new_width new_height with
        | Return scaled => symbols_of (pyzbar_decode scaled)
        | Raise _ => []
        end
    | None => []
    end.

Definition hit (p : image * Float64.float) : bool :=
  match yield (fst p) (snd p) with
  | [] => false
  | _ :: _ => true
  end.

(** The (representation, scale) pairs in search order: representations in
    preprocessor order and, within each, the scales 1.0, 1.2, 0.8, 1.4. *)
Definition candidates (representations : list image) : list (image * Float64.float) :=
  flat_map (fun r => map (fun s => (r, s))
                         [Float64.f1_0; Float64.f1_2; Float64.f0_8; Float64.f1_4])
           representations.

(** The pairs up to and including the first one that yields symbols. *)
Fixpoint through_first_hit (pairs : list (image * Float64.float))
  : list (image * Float64.float) :=
  match pairs with
  | [] => []
  | p :: rest => if hit p then [p] else p :: through_first_hit rest
  end.

(** Symbols and scale of the first pair that yields symbols; the empty
    sequence with scale 1.0 when no pair does. *)
Definition first_result (pairs : list (image * Float64.float))
  : list Decoded * Float64.float :=
  match find hit pairs with
  | Some p => (yield (fst p) (snd p), snd p)
  | None => ([], Float64.f1_0)
  end.

End Search.

(** The ASCII digit with a given value. *)
Definition ascii_digit (d : Z) : N := (0x30 + Z.to_N d)%N.

Definition has_code (code : str) (info : CodeStorage.detection_info) : bool :=
  str_eqb (CodeStorage.codigo info) code.

(** The entries recorded for a code, in ledger order. *)
Definition occurrences_of (codes : list CodeStorage.detection_info) (code : str)
  : list CodeStorage.detection_info :=
  List.filter (has_code code) codes.

(** The list stored for a code in [code_counts] (empty when it is no key). *)
Definition group_of (code_counts : list (str * list CodeStorage.detection_info)) (code : str)
  : list CodeStorage.detection_info :=
  match find (fun item => str_eqb (fst item) code) code_counts with
  | Some item => snd item
  | None => []
  end.

(** Pressing the same key [n] times. *)
Fixpoint press (n : nat) (key : Z) (d : BarcodeDetector.detector) : BarcodeDetector.detector :=
  match n with
  | O => d
  | S n' => press n' key (snd (BarcodeDetector.handle_keyboard_input d key))
  end.

(** The resized dimension [int(v * scale)] is positive for every listed [v]. *)
Definition resized_positive (dims : list Z) (scale : Float64.float) : bool :=
  forallb (fun v => match (fv <- Float64.int_mul_float v scale ;; Float64.to_int fv) with
                    | Return n => n >? 0
                    | Raise _ => false
                    end) dims.

(** A stand-in for the libraries, used to run the search on concrete
    input: an image is its [(height, width)], the filters keep it, resizing
    gives the requested size and the decoder finds nothing. *)
Definition blank_vision : Vision (Z * Z) :=
  {| cvtColor_gray := fun img => img;
     clahe_apply := fun img => img;
     adaptiveThreshold := fun img => img;
     morphologyEx_close := fun img => img;
     bilateralFilter := fun img => img;
     has_three_axes := fun _ => false;
     shape := fun img => img;
     resize := fun _ new_width new_height => Return (new_height, new_width);
     pyzbar_decode := fun _ => Return [];
     decode_utf8 := fun bytes => Return bytes |}.

(** The sum of the counts of a per-type dictionary. *)
Definition sum_counts (m : gmap (list N) Z) : Z := map_fold (fun _ n acc => n + acc) 0 m.

End Spec.

(** * Properties *)

(** ** Validators *)

Lemma decimal_is_digit c d : to_decimal c = Some d -> is_digit_char c = true.
Proof. intros E. unfold is_digit_char, to_digit. now rewrite E. Qed.

Lemma range_0_12_2 : range 0 12 2 = [0; 2; 4; 6; 8; 10].
Proof. reflexivity. Qed.

Lemma range_1_12_2 : range 1 12 2 = [1; 3; 5; 7; 9; 11].
Proof. reflexivity. Qed.

Lemma range_0_11_2 : range 0 11 2 = [0; 2; 4; 6; 8; 10].
Proof. reflexivity. Qed.

Lemma range_1_11_2 : range 1 11 2 = [1; 3; 5; 7; 9].
Proof. reflexivity. Qed.

(** Indexing a string whose length is known. *)
Ltac eval_getitem :=
  repeat match goal with
         | |- context [getitem ?s ?i] =>
             let r := eval vm_compute in (getitem s i) in
             change (getitem s i) with r
         end.

(** Case split on the next [int(code[i])]: it raises unless the character
    is a decimal character. *)
Ltac next_digit :=
  match goal with
  | |- context [int_of_char ?c] =>
      unfold int_of_char at 1;
      let d := fresh "d" in let E := fresh "E" in
      destruct (to_decimal c) as [d|] eqn:E; cbn [bind]; [|discriminate]
  end.

Ltac use_digit :=
  match goal with
  | H : is_decimal_char ?c = true |- _ =>
      unfold is_decimal_char in H;
      let d := fresh "d" in let E := fresh "E" in
      destruct (to_decimal c) as [d|] eqn:E; [clear H|discriminate H]
  end.

Ltac rewrite_digits :=
  repeat match goal with
         | H : to_decimal ?c = Some _ |- context [to_decimal ?c] => rewrite H
         | H : to_decimal ?c = Some _ |- context [is_digit_char ?c] =>
             rewrite (decimal_is_digit _ _ H)
         end.

Ltac rewrite_digits_in Hc :=
  repeat match goal with
         | H : to_decimal ?c = Some _ |- _ =>
             match type of Hc with context [to_decimal c] => rewrite H in Hc end
         end.

Ltac all_decimal :=
  unfold Spec.all_decimal_digits, is_decimal_char;
  repeat (constructor; [rewrite_digits; reflexivity|]); constructor.

Ltac split_forall :=
  repeat match goal with
         | H : Forall _ (_ :: _) |- _ => apply Forall_cons_1 in H; destruct H
         end.

Lemma ean13_true_inv code :
  BarcodeValidator.is_valid_ean13 code = Return true ->
  length code = 13%nat /\ Spec.all_decimal_digits code
  /\ Spec.ean13_check_digit code = Spec.digit_at code 12.
Proof.
  unfold BarcodeValidator.is_valid_ean13.
  destruct (len code =? 13) eqn:L; cbn [negb]; [|discriminate].
  apply Z.eqb_eq in L. unfold len in L.
  assert (Hl : length code = 13%nat) by lia. clear L.
  do 13 (destruct code as [|? code]; [discriminate|]).
  destruct code; [|discriminate].
  destruct (isdigit _); cbn [negb]; [|discriminate].
  rewrite range_0_12_2, range_1_12_2.
  unfold sum_gen. cbn [sum_from]. eval_getitem. cbn [bind].
  do 13 next_digit.
  intros Hc. injection Hc as Hc. apply Z.eqb_eq in Hc.
  split; [reflexivity|]. split; [all_decimal|].
  unfold Spec.ean13_check_digit, Spec.digit_at. cbn [nth_error].
  rewrite_digits. rewrite <- Hc. do 3 f_equal. lia.
Qed.

Lemma ean13_true_intro code :
  length code = 13%nat -> Spec.all_decimal_digits code ->
  Spec.ean13_check_digit code = Spec.digit_at code 12 ->
  BarcodeValidator.is_valid_ean13 code = Return true.
Proof.
  intros Hl Hd Hc.
  do 13 (destruct code as [|? code]; [discriminate|]).
  destruct code; [|discriminate]. clear Hl.
  unfold Spec.all_decimal_digits in Hd. split_forall. repeat use_digit.
  unfold Spec.ean13_check_digit, Spec.digit_at in Hc. cbn [nth_error] in Hc.
  rewrite_digits_in Hc.
  unfold BarcodeValidator.is_valid_ean13.
  change (len _ =? 13) with true. cbn [negb isdigit forallb].
  rewrite_digits. cbn [andb negb].
  rewrite range_0_12_2, range_1_12_2.
  unfold sum_gen. cbn [sum_from]. eval_getitem. cbn [bind].
  unfold int_of_char. rewrite_digits. cbn [bind].
  f_equal. apply Z.eqb_eq. rewrite <- Hc. do 3 f_equal. lia.
Qed.

Lemma ean13_replace_last c d :
  to_decimal c = Some d -> d <> 1 ->
  BarcodeValidator.is_valid_ean13 (lit "400638133393" ++ [c]) = Return false.
Proof.
  intros E Hd.
  unfold BarcodeValidator.is_valid_ean13.
  change (len _ =? 13) with true. cbn [negb].
  assert (Hi : isdigit (lit "400638133393" ++ [c]) = true).
  { change (isdigit (lit "400638133393" ++ [c]))
      with (forallb is_digit_char (lit "400638133393") && (is_digit_char c && true)).
    rewrite (decimal_is_digit _ _ E). reflexivity. }
  rewrite Hi. cbn [negb].
  rewrite range_0_12_2, range_1_12_2.
  change (lit "400638133393" ++ [c]) with [52;48;48;54;51;56;49;51;51;51;57;51;c]%N.
  unfold sum_gen. cbn [sum_from]. eval_getitem. cbn [bind].
  unfold int_of_char at 13. rewrite E.
  match goal with |- bind ?a _ = _ => let r := eval vm_compute in a in change a with r end.
  cbn [bind].
  match goal with |- bind ?a _ = _ => let r := eval vm_compute in a in change a with r end.
  cbn [bind].
  f_equal. apply Z.eqb_neq. vm_compute (_ mod _). congruence.
Qed.

(** C1. [is_valid_ean13(code)] returns true exactly when [code] has 13
    characters, all of them decimal digits, and the check digit computed from
    the digits at indices 0..11 equals the digit at index 12.  The reference
    code "4006381333931" is valid, and with any other digit in the last place
    it is not. *)
Theorem is_valid_ean13_iff_check_digit :
  (forall code : str,
      BarcodeValidator.is_valid_ean13 code = Return true <->
      (length code = 13%nat /\ Spec.all_decimal_digits code
       /\ Spec.ean13_check_digit code = Spec.digit_at code 12))
  /\ BarcodeValidator.is_valid_ean13 (lit "4006381333931") = Return true
  /\ (forall (c : N) (d : Z),
         to_decimal c = Some d -> d <> 1 ->
         BarcodeValidator.is_valid_ean13 (lit "400638133393" ++ [c]) = Return false).
Proof.
  split; [|split].
  - intros code. split.
    + apply ean13_true_inv.
    + intros (Hl & Hd & Hc). now apply ean13_true_intro.
  - reflexivity.
  - apply ean13_replace_last.
Qed.

Lemma upca_true_inv code :
  BarcodeValidator.is_valid_upca code = Return true ->
  length code = 12%nat /\ Spec.all_decimal_digits code
  /\ Spec.upca_check_digit code = Spec.digit_at code 11.
Proof.
  unfold BarcodeValidator.is_valid_upca.
  destruct (len code =? 12) eqn:L; cbn [negb]; [|discriminate].
  apply Z.eqb_eq in L. unfold len in L.
  assert (Hl : length code = 12%nat) by lia. clear L.
  do 12 (destruct code as [|? code]; [discriminate|]).
  destruct code; [|discriminate].
  destruct (isdigit _); cbn [negb]; [|discriminate].
  rewrite range_0_11_2, range_1_11_2.
  unfold sum_gen. cbn [sum_from]. eval_getitem. cbn [bind].
  do 12 next_digit.
  intros Hc. injection Hc as Hc. apply Z.eqb_eq in Hc.
  split; [reflexivity|]. split; [all_decimal|].
  unfold Spec.upca_check_digit, Spec.digit_at. cbn [nth_error].
  rewrite_digits. rewrite <- Hc. do 3 f_equal. lia.
Qed.

Lemma upca_true_intro code :
  length code = 12%nat -> Spec.all_decimal_digits code ->
  Spec.upca_check_digit code = Spec.digit_at code 11 ->
  BarcodeValidator.is_valid_upca code = Return true.
Proof.
  intros Hl Hd Hc.
  do 12 (destruct code as [|? code]; [discriminate|]).
  destruct code; [|discriminate]. clear Hl.
  unfold Spec.all_decimal_digits in Hd. split_forall. repeat use_digit.
  unfold Spec.upca_check_digit, Spec.digit_at in Hc. cbn [nth_error] in Hc.
  rewrite_digits_in Hc.
  unfold BarcodeValidator.is_valid_upca.
  change (len _ =? 12) with true. cbn [negb isdigit forallb].
  rewrite_digits. cbn [andb negb].
  rewrite range_0_11_2, range_1_11_2.
  unfold sum_gen. cbn [sum_from]. eval_getitem. cbn [bind].
  unfold int_of_char. rewrite_digits. cbn [bind].
  f_equal. apply Z.eqb_eq. rewrite <- Hc. do 3 f_equal. lia.
Qed.

(** C5. [is_valid_upca(code)] returns true exactly when [code] has 12
    characters, all of them decimal digits, and the check digit computed from
    the digits at positions 0..10 (three times the odd-position sum plus the
    even-position sum) equals the digit at position 11. *)
Theorem is_valid_upca_iff_check_digit :
  forall code : str,
    BarcodeValidator.is_valid_upca code = Return true <->
    (length code = 12%nat /\ Spec.all_decimal_digits code
     /\ Spec.upca_check_digit code = Spec.digit_at code 11).
Proof.
  intros code. split.
  - apply upca_true_inv.
  - intros (Hl & Hd & Hc). now apply upca_true_intro.
Qed.

(** What the validators do on malformed input short of raising. *)
Lemma is_valid_ean13_wrong_length code :
  length code <> 13%nat -> BarcodeValidator.is_valid_ean13 code = Return false.
Proof.
  intros Hl. unfold BarcodeValidator.is_valid_ean13.
  destruct (len code =? 13) eqn:L; [|reflexivity].
  apply Z.eqb_eq in L. unfold len in L. lia.
Qed.

Lemma is_valid_upca_wrong_length code :
  length code <> 12%nat -> BarcodeValidator.is_valid_upca code = Return false.
Proof.
  intros Hl. unfold BarcodeValidator.is_valid_upca.
  destruct (len code =? 12) eqn:L; [|reflexivity].
  apply Z.eqb_eq in L. unfold len in L. lia.
Qed.

Lemma is_valid_ean13_not_isdigit code :
  isdigit code = false -> BarcodeValidator.is_valid_ean13 code = Return false.
Proof.
  intros Hd. unfold BarcodeValidator.is_valid_ean13.
  rewrite Hd. now destruct (negb (len code =? 13)).
Qed.

Lemma is_valid_upca_not_isdigit code :
  isdigit code = false -> BarcodeValidator.is_valid_upca code = Return false.
Proof.
  intros Hd. unfold BarcodeValidator.is_valid_upca.
  rewrite Hd. now destruct (negb (len code =? 12)).
Qed.

(** A string made of characters that [isdigit] accepts can still make
    [int] raise: SUPERSCRIPT TWO is a digit and not a decimal character. *)
Lemma superscript_two_is_digit_not_decimal :
  is_digit_char 0xb2 = true /\ to_decimal 0xb2 = None.
Proof. split; reflexivity. Qed.

(** C6, at the input on which the validators raise: thirteen (twelve)
    times SUPERSCRIPT TWO passes the length and [isdigit] tests of
    [is_valid_ean13] ([is_valid_upca]) and then [int] raises ValueError. *)
Theorem validators_raise_on_superscript_digits :
  isdigit (repeat 0xb2%N 13) = true
  /\ BarcodeValidator.is_valid_ean13 (repeat 0xb2%N 13) = Raise ValueError
  /\ isdigit (repeat 0xb2%N 12) = true
  /\ BarcodeValidator.is_valid_upca (repeat 0xb2%N 12) = Raise ValueError.
Proof. repeat split; reflexivity. Qed.

(** C10. An EAN13-tagged code whose length is not 13 is classified as
    pharmaceutical: the prefix test is not reached. *)
Theorem is_pharmaceutical_code_ean13_other_length (code : str) :
  length code <> 13%nat ->
  BarcodeValidator.is_pharmaceutical_code code (lit "EAN13") = true.
Proof.
  intros Hl. unfold BarcodeValidator.is_pharmaceutical_code.
  change (existsb (str_eqb (lit "EAN13")) BarcodeValidator.pharmaceutical_types) with true.
  change (str_eqb (lit "EAN13") (lit "EAN13")) with true.
  cbn [negb andb].
  destruct (len code =? 13) eqn:L; [|reflexivity].
  apply Z.eqb_eq in L. unfold len in L. lia.
Qed.

Lemma is_pharmaceutical_code_ean13_other_length_witness :
  length (lit "12345") <> 13%nat
  /\ BarcodeValidator.is_pharmaceutical_code (lit "12345") (lit "EAN13") = true.
Proof.
  split.
  - cbn. lia.
  - apply (is_pharmaceutical_code_ean13_other_length (lit "12345")). cbn. lia.
Defined.

(** On length-13 EAN13 codes the classification is the prefix test. *)
Lemma is_pharmaceutical_code_ean13_length_13 (code : str) :
  length code = 13%nat ->
  BarcodeValidator.is_pharmaceutical_code code (lit "EAN13")
  = existsb (fun prefix => startswith code prefix) BarcodeValidator.pharma_prefixes.
Proof.
  intros Hl. unfold BarcodeValidator.is_pharmaceutical_code, len. rewrite Hl. reflexivity.
Qed.

(** ** Cooldown gate *)

Lemma str_eqb_refl (s : str) : str_eqb s s = true.
Proof. induction s as [|c s IH]; cbn; [reflexivity|]. now rewrite N.eqb_refl, IH. Qed.

Lemma str_eqb_eq (a b : str) : str_eqb a b = true <-> a = b.
Proof.
  split; [|intros ->; apply str_eqb_refl].
  revert b. induction a as [|x a IH]; intros [|y b]; cbn; try discriminate; [reflexivity|].
  intros Hab. apply andb_prop in Hab as [Hxy Hab].
  apply N.eqb_eq in Hxy. apply IH in Hab. congruence.
Qed.

(** The comparison with the default cooldown of 2.0 seconds at its boundary:
    two seconds have not elapsed, two seconds and a microsecond have. *)
Lemma cooldown_elapsed_boundary :
  CodeStorage.cooldown_elapsed CodeStorage.init 0 2000000 = false
  /\ CodeStorage.cooldown_elapsed CodeStorage.init 0 2000001 = true.
Proof. split; reflexivity. Qed.

(** C2 as stated fails: with "X" tracked since t = 0, the attempt with "X"
    at t = 1 s is rejected and the stored time is still 0, not 1 s. *)
Lemma rejected_attempt_keeps_stored_time :
  let tracking :=
    {| CodeStorage.detected_codes := [];
       CodeStorage.last_barcode := Some (lit "X");
       CodeStorage.last_detection_time := Some 0;
       CodeStorage.cooldown_seconds := Float64.f2_0 |} in
  let attempt := CodeStorage.should_process_detection tracking (lit "X") 1000000 in
  CodeStorage.cooldown_elapsed tracking 0 1000000 = false
  /\ fst attempt = false
  /\ CodeStorage.last_detection_time (snd attempt) = Some 0
  /\ CodeStorage.last_detection_time (snd attempt) <> Some 1000000.
Proof. cbv zeta. repeat split; try reflexivity. vm_compute. discriminate. Qed.

(** C2, amended.  When the gate tracks a payload and the same payload
    arrives while the cooldown has not elapsed, the attempt is rejected, no
    entry is added, and the gate keeps its state: the stored payload and
    time are those of the last accepted attempt. *)
Theorem rejected_within_cooldown_keeps_state
    (storage : CodeStorage.t) (payload barcode_type now_text : str) (last_time current_time : Z) :
  CodeStorage.last_barcode storage = Some payload ->
  CodeStorage.last_detection_time storage = Some last_time ->
  CodeStorage.cooldown_elapsed storage last_time current_time = false ->
  CodeStorage.should_process_detection storage payload current_time = (false, storage)
  /\ BarcodeDetector.record_detection storage payload barcode_type current_time now_text
     = Return storage.
Proof.
  intros Hp Ht He.
  assert (Hs : CodeStorage.should_process_detection storage payload current_time
               = (false, storage)).
  { unfold CodeStorage.should_process_detection, CodeStorage.barcode_differs.
    now rewrite Hp, Ht, He, str_eqb_refl. }
  split; [exact Hs|].
  unfold BarcodeDetector.record_detection. now rewrite Hs.
Qed.

Lemma rejected_within_cooldown_keeps_state_witness :
  let tracking :=
    {| CodeStorage.detected_codes := [];
       CodeStorage.last_barcode := Some (lit "X");
       CodeStorage.last_detection_time := Some 0;
       CodeStorage.cooldown_seconds := Float64.f2_0 |} in
  CodeStorage.should_process_detection tracking (lit "X") 1000000 = (false, tracking)
  /\ BarcodeDetector.record_detection tracking (lit "X") (lit "EAN13") 1000000
       (lit "2024-01-01 00:00:01") = Return tracking.
Proof.
  cbv zeta.
  apply (rejected_within_cooldown_keeps_state _ (lit "X") (lit "EAN13")
           (lit "2024-01-01 00:00:01") 0 1000000); reflexivity.
Defined.

(** C3. With the default cooldown of 2.0 s and an empty gate: "X" at t = 0
    is accepted, "X" at t = 1.0 s is rejected, "X" at t = 2.1 s is accepted;
    and after "X" accepted at t = 0, "Y" at t = 0.5 s is accepted. *)
Theorem cooldown_gate_scenario :
  let first := CodeStorage.should_process_detection CodeStorage.init (lit "X") 0 in
  let second := CodeStorage.should_process_detection (snd first) (lit "X") 1000000 in
  let third := CodeStorage.should_process_detection (snd second) (lit "X") 2100000 in
  let other := CodeStorage.should_process_detection (snd first) (lit "Y") 500000 in
  CodeStorage.cooldown_seconds CodeStorage.init = Float64.int_truediv_raw 2 1
  /\ fst first = true /\ fst second = false /\ fst third = true /\ fst other = true.
Proof. cbv zeta. repeat split; reflexivity. Qed.

(** C9. A rejected call leaves the whole state as it was; an accepted call
    overwrites [last_barcode] and [last_detection_time] with the payload and
    the current time; the list of detected codes is modified by neither. *)
Theorem should_process_detection_effect
    (storage : CodeStorage.t) (barcode_data : str) (current_time : Z) :
  let accepted := fst (CodeStorage.should_process_detection storage barcode_data current_time) in
  let storage' := snd (CodeStorage.should_process_detection storage barcode_data current_time) in
  storage' =
    (if accepted
     then {| CodeStorage.detected_codes := CodeStorage.detected_codes storage;
             CodeStorage.last_barcode := Some barcode_data;
             CodeStorage.last_detection_time := Some current_time;
             CodeStorage.cooldown_seconds := CodeStorage.cooldown_seconds storage |}
     else storage)
  /\ CodeStorage.detected_codes storage' = CodeStorage.detected_codes storage
  /\ (accepted = false ->
      CodeStorage.last_barcode storage' = CodeStorage.last_barcode storage
      /\ CodeStorage.last_detection_time storage' = CodeStorage.last_detection_time storage)
  /\ (accepted = true ->
      CodeStorage.last_barcode storage' = Some barcode_data
      /\ CodeStorage.last_detection_time storage' = Some current_time).
Proof.
  cbv zeta. unfold CodeStorage.should_process_detection.
  destruct (_ || _); cbn; repeat split; congruence.
Qed.

(** ** Box remapping *)

Lemma count_up_In (v start : Z) (n : nat) :
  start <= v < start + Z.of_nat n -> In v (Spec.count_up start n).
Proof.
  revert start. induction n as [|n IH]; intros start Hv; [lia|].
  cbn [Spec.count_up]. destruct (Z.eq_dec start v) as [->|Hne]; [now left|].
  right. apply IH. lia.
Qed.

Lemma adjust_agrees_2048 : forallb (Spec.adjust_agrees 2048) Spec.decimal_scales = true.
Proof. vm_compute. reflexivity. Qed.

(** For the configured scales, [int(v / scale)] is the integer part of the
    exact quotient of [v] by the decimal scale. *)
Lemma adjust_divided_coordinate (v : Z) (s : Float64.float) (q : Q) :
  In (s, q) Spec.decimal_scales -> -2048 < v < 2048 ->
  DisplayManager.adjust v s = Return (Spec.divided_coordinate v q).
Proof.
  intros Hs Hv.
  pose proof adjust_agrees_2048 as Hall.
  rewrite forallb_forall in Hall. specialize (Hall _ Hs).
  unfold Spec.adjust_agrees in Hall. rewrite forallb_forall in Hall.
  assert (Hin : In v (Spec.coordinates 2048)).
  { unfold Spec.coordinates. apply count_up_In. lia. }
  specialize (Hall _ Hin). cbn [fst snd] in Hall.
  destruct (DisplayManager.adjust v s) as [r|e]; [|discriminate].
  apply Z.eqb_eq in Hall. now subst.
Qed.

(** C7 as stated fails: the coordinate 10 found at scale 1.2 is remapped to
    8, which is not 10 divided by 1.2. *)
Lemma adjusted_coordinate_is_truncated :
  DisplayManager.adjusted_rect (10, 10, 10, 10) Float64.f1_2 = Return (8, 8, 8, 8)
  /\ ~ (inject_Z 8 == inject_Z 10 / (12 # 10))%Q
  /\ ~ (inject_Z 8 == inject_Z 10 / Float64.to_Q Float64.f1_2)%Q.
Proof. repeat split; try reflexivity; vm_compute; discriminate. Qed.

(** C7, amended.  The box of a symbol found at one of the configured scales
    is remapped by dividing each of x, y, w and h by the scale and keeping
    the integer part of the quotient (truncation toward zero), for
    coordinates of absolute value below 2048; the box (120, 120, 60, 30)
    found at scale 1.2 is remapped to (100, 100, 50, 25). *)
Theorem adjusted_rect_divides_and_truncates :
  (forall (x y w h : Z) (s : Float64.float) (q : Q),
      In (s, q) Spec.decimal_scales ->
      -2048 < x < 2048 -> -2048 < y < 2048 -> -2048 < w < 2048 -> -2048 < h < 2048 ->
      DisplayManager.adjusted_rect (x, y, w, h) s
      = Return (Spec.divided_coordinate x q, Spec.divided_coordinate y q,
                Spec.divided_coordinate w q, Spec.divided_coordinate h q))
  /\ DisplayManager.adjusted_rect (120, 120, 60, 30) Float64.f1_2
     = Return (100, 100, 50, 25).
Proof.
  split; [|reflexivity].
  intros x y w h s q Hs Hx Hy Hw Hh. unfold DisplayManager.adjusted_rect.
  rewrite (adjust_divided_coordinate x s q Hs Hx), (adjust_divided_coordinate y s q Hs Hy),
    (adjust_divided_coordinate w s q Hs Hw), (adjust_divided_coordinate h s q Hs Hh).
  reflexivity.
Qed.

Lemma adjusted_rect_divides_and_truncates_witness :
  DisplayManager.adjusted_rect (7, 11, 60, 30) Float64.f0_8 = Return (8, 13, 75, 37).
Proof.
  apply (proj1 adjusted_rect_divides_and_truncates 7 11 60 30 Float64.f0_8 (8 # 10)%Q);
    [cbn; tauto | lia | lia | lia | lia].
Defined.

(** ** Ledger statistics *)

Lemma count_nonneg {A : Type} (test : A -> bool) (l : list A) : 0 <= Spec.count test l.
Proof. induction l as [|x l IH]; cbn; [lia|]. destruct (test x); lia. Qed.

Lemma count_filter_length {A : Type} (test : A -> bool) (l : list A) :
  Z.of_nat (length (List.filter test l)) = Spec.count test l.
Proof.
  induction l as [|x l IH]; cbn; [reflexivity|].
  destruct (test x); cbn [length]; lia.
Qed.

Lemma count_le_length {A : Type} (test : A -> bool) (l : list A) :
  Spec.count test l <= Z.of_nat (length l).
Proof.
  induction l as [|x l IH]; cbn [Spec.count length]; [lia|]. destruct (test x); lia.
Qed.

(** The counting loop of [get_statistics], started from any dictionary. *)
Lemma fold_count_type_lookup (codes : list CodeStorage.detection_info)
    (m : gmap (list N) Z) (t : str) :
  fold_left CodeStorage.count_type codes m !! t
  = match m !! t with
    | Some k => Some (k + Spec.count (Spec.has_type t) codes)
    | None => if Spec.count (Spec.has_type t) codes =? 0 then None
              else Some (Spec.count (Spec.has_type t) codes)
    end.
Proof.
  revert m. induction codes as [|code codes IH]; intros m; cbn [fold_left Spec.count].
  - destruct (m !! t); [f_equal; lia|reflexivity].
  - rewrite IH. unfold CodeStorage.count_type.
    change (Spec.has_type t code) with (str_eqb (CodeStorage.get_tipo code) t).
    pose proof (count_nonneg (Spec.has_type t) codes) as Hn.
    destruct (str_eqb (CodeStorage.get_tipo code) t) eqn:E.
    + apply str_eqb_eq in E. rewrite E. rewrite lookup_insert_eq.
      destruct (m !! t) as [k|].
      * f_equal; lia.
      * destruct (1 + _ =? 0) eqn:Z0; [apply Z.eqb_eq in Z0; lia|]. f_equal; lia.
    + assert (Hne : CodeStorage.get_tipo code <> t).
      { intros Heq. apply str_eqb_eq in Heq. congruence. }
      rewrite lookup_insert_ne by exact Hne. rewrite Z.add_0_l. reflexivity.
Qed.

Lemma types_distribution_lookup (storage : CodeStorage.t) (t : str) :
  CodeStorage.types_distribution (CodeStorage.get_statistics storage) !! t
  = Spec.type_count (CodeStorage.detected_codes storage) t.
Proof.
  cbn [CodeStorage.get_statistics CodeStorage.types_distribution].
  rewrite fold_count_type_lookup, lookup_empty. reflexivity.
Qed.

(** C8. [get_statistics()] returns the number of records, the number
    flagged valid, the number flagged pharmaceutical, the count of records
    per type, and a rate that is valid / total when there are records and 0
    when there are none.  On a valid EAN13, an invalid EAN13 and a CODE128 it
    returns total 3, valid 2, counts EAN13: 2 and CODE128: 1, and the rate
    2 / 3 (as a float: the nearest one below 2/3). *)
Theorem get_statistics_counts :
  (forall storage : CodeStorage.t,
      let codes := CodeStorage.detected_codes storage in
      let stats := CodeStorage.get_statistics storage in
      CodeStorage.total stats = Z.of_nat (length codes)
      /\ CodeStorage.valid stats = Spec.count Spec.flagged_valid codes
      /\ CodeStorage.pharmaceutical stats = Spec.count Spec.flagged_pharmaceutical codes
      /\ (forall t : str,
             CodeStorage.types_distribution stats !! t = Spec.type_count codes t)
      /\ CodeStorage.detection_rate stats
         = (if CodeStorage.total stats >? 0
            then CodeStorage.Float
                   (Float64.int_truediv_raw (CodeStorage.valid stats) (CodeStorage.total stats))
            else CodeStorage.Int 0)
      /\ (codes = [] -> CodeStorage.detection_rate stats = CodeStorage.Int 0)
      /\ 0 <= CodeStorage.valid stats <= CodeStorage.total stats)
  /\ (exists ledger : CodeStorage.t,
         Spec.example_ledger = Return ledger
         /\ CodeStorage.total (CodeStorage.get_statistics ledger) = 3
         /\ CodeStorage.valid (CodeStorage.get_statistics ledger) = 2
         /\ CodeStorage.types_distribution (CodeStorage.get_statistics ledger)
            = <[lit "CODE128" := 1]> (<[lit "EAN13" := 2]> ∅)
         /\ CodeStorage.detection_rate (CodeStorage.get_statistics ledger)
            = CodeStorage.Float (Float64.int_truediv_raw 2 3)
         /\ (Float64.to_Q (Float64.int_truediv_raw 2 3) <= 2 # 3)%Q
         /\ ((2 # 3) - (1 # 2 ^ 54) <= Float64.to_Q (Float64.int_truediv_raw 2 3))%Q).
Proof.
  split.
  - intros storage codes stats. subst stats codes.
    split; [reflexivity|].
    split; [apply count_filter_length|].
    split; [apply count_filter_length|].
    split; [intros t; apply types_distribution_lookup|].
    split; [reflexivity|].
    split; [intros Hnil; cbn; now rewrite Hnil|].
    cbn [CodeStorage.get_statistics CodeStorage.valid CodeStorage.total].
    rewrite count_filter_length.
    split; [apply count_nonneg|apply count_le_length].
  - match eval vm_compute in Spec.example_ledger with
    | Return ?l => exists l
    end.
    repeat split; try (vm_compute; reflexivity); vm_compute; discriminate.
Qed.

(** ** Search over representations and scales *)

Section SearchFacts.
Context `{Vision image}.

Lemma through_first_hit_app_hit (l1 l2 : list (image * Float64.float)) p :
  find Spec.hit l1 = Some p ->
  Spec.through_first_hit (l1 ++ l2) = Spec.through_first_hit l1.
Proof.
  induction l1 as [|a l1 IH]; cbn [find app Spec.through_first_hit]; [discriminate|].
  destruct (Spec.hit a); [reflexivity|]. intros Hf. now rewrite IH.
Qed.

Lemma through_first_hit_app_miss (l1 l2 : list (image * Float64.float)) :
  find Spec.hit l1 = None ->
  Spec.through_first_hit (l1 ++ l2) = l1 ++ Spec.through_first_hit l2.
Proof.
  induction l1 as [|a l1 IH]; cbn [find app Spec.through_first_hit]; [reflexivity|].
  destruct (Spec.hit a); [discriminate|]. intros Hf. now rewrite IH.
Qed.

Lemma through_first_hit_miss (l : list (image * Float64.float)) :
  find Spec.hit l = None -> Spec.through_first_hit l = l.
Proof.
  intros Hf. rewrite <- (app_nil_r l) at 1.
  rewrite through_first_hit_app_miss by exact Hf. apply app_nil_r.
Qed.

Lemma find_app_hit {A} (f : A -> bool) l1 l2 p :
  find f l1 = Some p -> find f (l1 ++ l2) = Some p.
Proof.
  induction l1 as [|a l1 IH]; cbn [find app]; [discriminate|].
  destruct (f a); [trivial|exact IH].
Qed.

Lemma find_app_miss {A} (f : A -> bool) l1 l2 :
  find f l1 = None -> find f (l1 ++ l2) = find f l2.
Proof.
  induction l1 as [|a l1 IH]; cbn [find app]; [trivial|].
  destruct (f a); [discriminate|exact IH].
Qed.

(** The try block of [detect_with_multiple_scales] gives what the decoder
    yields: its result is the decoder's on the smoothed (and resized) image,
    and every other exit of the block gives nothing. *)
Lemma yield_decode_at_scale (representation : image) (s : Float64.float) :
  Spec.yield representation s
  = match ImageProcessor.decode_at_scale
            (ImageProcessor.apply_bilateral_filter representation) s with
    | Return (Some barcodes) => barcodes
    | _ => []
    end.
Proof.
  unfold Spec.yield, Spec.resized_size, Spec.smoothed, Spec.symbols_of,
    ImageProcessor.decode_at_scale, ImageProcessor.apply_bilateral_filter.
  destruct (Float64.eqb s Float64.f1_0); cbn [negb].
  - destruct (pyzbar_decode _); reflexivity.
  - destruct (shape _) as [height width]. cbn [fst snd].
    destruct (Float64.int_mul_float width s) as [fw|]; cbn [bind]; [|reflexivity].
    destruct (Float64.to_int fw) as [new_width|]; cbn [bind]; [|reflexivity].
    destruct (Float64.int_mul_float height s) as [fh|]; cbn [bind]; [|reflexivity].
    destruct (Float64.to_int fh) as [new_height|]; cbn [bind]; [|reflexivity].
    destruct ((new_width >? 0) && (new_height >? 0)); [|reflexivity].
    destruct (resize _ new_width new_height) as [scaled|]; cbn [bind]; [|reflexivity].
    destruct (pyzbar_decode scaled); reflexivity.
Qed.

Lemma scale_loop_cons (representation : image) (s : Float64.float) rest :
  ImageProcessor.scale_loop (ImageProcessor.apply_bilateral_filter representation) (s :: rest)
  = match Spec.yield representation s with
    | b :: bs => ((b :: bs, s), [s])
    | [] =>
        let '(found, tried) :=
          ImageProcessor.scale_loop (ImageProcessor.apply_bilateral_filter representation) rest in
        (found, s :: tried)
    end.
Proof.
  cbn [ImageProcessor.scale_loop]. rewrite yield_decode_at_scale.
  destruct (ImageProcessor.decode_at_scale _ s) as [[[|b bs]|]|e]; reflexivity.
Qed.

Lemma hit_yield (p : image * Float64.float) :
  Spec.hit p = match Spec.yield (fst p) (snd p) with [] => false | _ :: _ => true end.
Proof. reflexivity. Qed.

(** The scale loop on one representation. *)
Lemma scale_loop_spec (representation : image) (scales : list Float64.float) :
  let pairs := map (fun s => (representation, s)) scales in
  ImageProcessor.scale_loop (ImageProcessor.apply_bilateral_filter representation) scales
  = (Spec.first_result pairs, map snd (Spec.through_first_hit pairs)).
Proof.
  cbv zeta. induction scales as [|s scales IH]; [reflexivity|].
  rewrite scale_loop_cons, IH. unfold Spec.first_result.
  cbn [map find Spec.through_first_hit]. rewrite hit_yield. cbn [fst snd].
  destruct (Spec.yield representation s) as [|b bs] eqn:E;
    cbn [fst snd map]; rewrite ?E; reflexivity.
Qed.

Lemma first_result_hit (pairs : list (image * Float64.float)) p :
  find Spec.hit pairs = Some p -> exists b bs, fst (Spec.first_result pairs) = b :: bs.
Proof.
  intros Hf. unfold Spec.first_result. rewrite Hf. cbn [fst].
  apply find_some in Hf as [_ Hh]. rewrite hit_yield in Hh.
  destruct (Spec.yield (fst p) (snd p)) as [|b bs]; [discriminate|eauto].
Qed.

Lemma candidates_cons (r : image) rest :
  Spec.candidates (r :: rest)
  = map (fun s => (r, s)) Config.scales ++ Spec.candidates rest.
Proof. reflexivity. Qed.

Lemma map_pair_snd (r : image) (l : list (image * Float64.float)) :
  (forall p, In p l -> fst p = r) -> map (fun s => (r, s)) (map snd l) = l.
Proof.
  induction l as [|[r' s] l IH]; intros Hr; [reflexivity|].
  cbn [map snd]. rewrite IH by (intros p Hp; apply Hr; now right).
  specialize (Hr (r', s) (or_introl eq_refl)). cbn in Hr. now subst.
Qed.

Lemma through_first_hit_incl (l : list (image * Float64.float)) p :
  In p (Spec.through_first_hit l) -> In p l.
Proof.
  induction l as [|a l IH]; cbn [Spec.through_first_hit]; [trivial|].
  destruct (Spec.hit a); cbn [In]; intuition.
Qed.

(** The loop over the representations. *)
Lemma frame_loop_spec (representations : list image) :
  BarcodeDetector.frame_loop representations
  = (Spec.first_result (Spec.candidates representations),
     Spec.through_first_hit (Spec.candidates representations)).
Proof.
  induction representations as [|r rest IH]; [reflexivity|].
  cbn [BarcodeDetector.frame_loop]. unfold ImageProcessor.detect_with_multiple_scales.
  rewrite scale_loop_spec, candidates_cons.
  set (pairs := map (fun s => (r, s)) Config.scales).
  rewrite map_pair_snd.
  2:{ intros p Hp. apply through_first_hit_incl in Hp. subst pairs.
      apply in_map_iff in Hp as (s & <- & _). reflexivity. }
  destruct (find Spec.hit pairs) as [p|] eqn:Hf.
  - destruct (first_result_hit pairs p Hf) as (b & bs & Hb).
    destruct (Spec.first_result pairs) as [found scale] eqn:Hr. cbn [fst] in Hb. subst found.
    rewrite (through_first_hit_app_hit _ _ _ Hf).
    unfold Spec.first_result in *. rewrite (find_app_hit _ _ _ _ Hf). rewrite Hf in Hr.
    now rewrite Hr.
  - rewrite (through_first_hit_app_miss _ _ Hf), (through_first_hit_miss _ Hf).
    unfold Spec.first_result at 1. rewrite Hf. rewrite IH.
    unfold Spec.first_result. rewrite (find_app_miss _ _ _ Hf). reflexivity.
Qed.

Lemma through_first_hit_split (l : list (image * Float64.float)) p :
  find Spec.hit l = Some p ->
  exists l1 l2,
    l = l1 ++ p :: l2
    /\ Forall (fun q => Spec.hit q = false) l1
    /\ Spec.hit p = true
    /\ Spec.through_first_hit l = l1 ++ [p].
Proof.
  induction l as [|a l IH]; cbn [find Spec.through_first_hit]; [discriminate|].
  destruct (Spec.hit a) eqn:Ha.
  - intros [= <-]. exists [], l. repeat split; trivial.
  - intros Hf. destruct (IH Hf) as (l1 & l2 & -> & Hall & Hp & Ht).
    exists (a :: l1), l2. rewrite Ht. repeat split; trivial.
    now constructor.
Qed.

(** C4. Per frame the search goes through the five representations in
    preprocessor order (the frame, its grayscale, the contrast-enhanced
    grayscale, the binarized grayscale, the closed binarization) and, within
    each, through the scales 1.0, 1.2, 0.8, 1.4.  It returns the symbols and
    the scale of the first pair for which the decoder (run on the smoothed
    image, resized for a scale other than 1.0) yields symbols, the pairs
    tried are exactly those up to and including that pair (all of them, with
    the empty result and scale 1.0, when no pair yields symbols), and a
    representation none of whose scales yields symbols gives the empty
    sequence with scale 1.0. *)
Theorem process_frame_search_first_hit (frame : image) :
  let gray := cvtColor_gray frame in
  let binary := adaptiveThreshold gray in
  let representations :=
    [frame; gray; clahe_apply gray; binary; morphologyEx_close binary] in
  let pairs := Spec.candidates representations in
  let found := fst (BarcodeDetector.process_frame_search frame) in
  let tried := snd (BarcodeDetector.process_frame_search frame) in
  ImageProcessor.preprocess_frame frame = (frame, representations)
  /\ Config.scales = [Float64.int_truediv_raw 10 10; Float64.int_truediv_raw 12 10;
                      Float64.int_truediv_raw 8 10; Float64.int_truediv_raw 14 10]
  /\ pairs = flat_map (fun r => map (fun s => (r, s)) Config.scales) representations
  /\ (forall representation,
        Spec.yield representation Float64.f1_0
        = Spec.symbols_of (pyzbar_decode (Spec.smoothed representation)))
  /\ (forall representation s,
        Float64.eqb s Float64.f1_0 = false ->
        Spec.yield representation s
        = match Spec.resized_size (Spec.smoothed representation) s with
          | Some (new_width, new_height) =>
              match resize (Spec.smoothed representation) new_width new_height with
              | Return scaled => Spec.symbols_of (pyzbar_decode scaled)
              | Raise _ => []
              end
          | None => []
          end)
  /\ found = Spec.first_result pairs
  /\ tried = Spec.through_first_hit pairs
  /\ (forall p,
        find Spec.hit pairs = Some p ->
        found = (Spec.yield (fst p) (snd p), snd p)
        /\ fst found <> []
        /\ exists earlier later,
             pairs = earlier ++ p :: later
             /\ Forall (fun q => Spec.yield (fst q) (snd q) = []) earlier
             /\ tried = earlier ++ [p])
  /\ (find Spec.hit pairs = None -> found = ([], Float64.f1_0) /\ tried = pairs)
  /\ (forall representation,
        (forall s, In s Config.scales -> Spec.yield representation s = []) ->
        fst (ImageProcessor.detect_with_multiple_scales representation)
        = ([], Float64.f1_0)).
Proof.
  cbv zeta. unfold BarcodeDetector.process_frame_search.
  cbn [ImageProcessor.preprocess_frame snd]. rewrite frame_loop_spec. cbn [fst snd].
  split; [reflexivity|]. split; [reflexivity|]. split; [reflexivity|].
  split; [reflexivity|].
  split; [intros representation s Hs; unfold Spec.yield; now rewrite Hs|].
  split; [reflexivity|]. split; [reflexivity|]. split; [|split].
  - intros p Hf. unfold Spec.first_result. rewrite Hf. split; [reflexivity|].
    destruct (through_first_hit_split _ _ Hf) as (l1 & l2 & Hl & Hall & Hp & Ht).
    split.
    + cbn [fst]. rewrite hit_yield in Hp.
      destruct (Spec.yield (fst p) (snd p)); [discriminate|congruence].
    + exists l1, l2. split; [exact Hl|]. split; [|exact Ht].
      eapply Forall_impl; [exact Hall|]. intros q Hq. cbv beta in Hq.
      rewrite hit_yield in Hq.
      destruct (Spec.yield (fst q) (snd q)); [reflexivity|discriminate].
  - intros Hf. unfold Spec.first_result. rewrite Hf.
    split; [reflexivity|apply through_first_hit_miss, Hf].
  - intros representation Hnone. unfold ImageProcessor.detect_with_multiple_scales.
    rewrite scale_loop_spec. cbn [fst]. unfold Spec.first_result.
    destruct (find Spec.hit _) as [p|] eqn:Hf; [|reflexivity].
    apply find_some in Hf as [Hin Hh]. apply in_map_iff in Hin as (s & <- & Hs).
    rewrite hit_yield in Hh. cbn [fst snd] in Hh. now rewrite (Hnone s Hs) in Hh.
Qed.

End SearchFacts.

(** * Further properties of the modelled code *)

Lemma str_eqb_neq (a b : str) : a <> b -> str_eqb a b = false.
Proof.
  intros Hne. destruct (str_eqb a b) eqn:E; [|reflexivity].
  apply str_eqb_eq in E. contradiction.
Qed.

(** The value of the validator on thirteen decimal characters. *)
Lemma ean13_decimal_value (code : str) :
  length code = 13%nat -> Spec.all_decimal_digits code ->
  BarcodeValidator.is_valid_ean13 code
  = Return (Spec.ean13_check_digit code =? Spec.digit_at code 12).
Proof.
  intros Hl Hd.
  do 13 (destruct code as [|? code]; [discriminate|]).
  destruct code; [|discriminate]. clear Hl.
  unfold Spec.all_decimal_digits in Hd. split_forall. repeat use_digit.
  unfold Spec.ean13_check_digit, Spec.digit_at. cbn [nth_error].
  unfold BarcodeValidator.is_valid_ean13.
  change (len _ =? 13) with true. cbn [negb isdigit forallb].
  rewrite_digits. cbn [andb negb].
  rewrite range_0_12_2, range_1_12_2.
  unfold sum_gen. cbn [sum_from]. eval_getitem. cbn [bind].
  unfold int_of_char. rewrite_digits. cbn [bind].
  do 2 f_equal. do 3 f_equal. lia.
Qed.

Lemma to_decimal_range (c : N) (d : Z) : to_decimal c = Some d -> 0 <= d <= 9.
Proof.
  unfold to_decimal.
  destruct (find _ decimal_zeros) as [z|] eqn:F; [|discriminate].
  apply find_some in F as [_ Hz]. apply andb_prop in Hz as [H1 H2].
  apply N.leb_le in H1. apply N.ltb_lt in H2. intros [= <-]. lia.
Qed.

Lemma all_decimal_insert (code : str) (i : nat) (c : N) :
  Spec.all_decimal_digits code -> is_decimal_char c = true ->
  Spec.all_decimal_digits (<[i:=c]> code).
Proof.
  unfold Spec.all_decimal_digits. intros Hd Hc.
  apply Forall_insert; assumption.
Qed.

Lemma digit_at_decimal (code : str) (i : nat) (c : N) (d : Z) :
  code !! i = Some c -> to_decimal c = Some d -> Spec.digit_at code i = d.
Proof.
  intros Hi Hc. unfold Spec.digit_at.
  replace (nth_error code i) with (Some c); [now rewrite Hc|].
  symmetry. revert i Hi. induction code as [|a code IH]; intros [|i]; cbn; try discriminate; auto.
Qed.

(** X1. Replacing any one digit of a valid EAN-13 code by a different digit
    gives a code that [is_valid_ean13] rejects (it returns false, it does not
    raise). *)
Theorem ean13_detects_single_digit_error (code : str) (i : nat) (c c' : N) (d d' : Z) :
  BarcodeValidator.is_valid_ean13 code = Return true ->
  code !! i = Some c -> to_decimal c = Some d -> to_decimal c' = Some d' -> d <> d' ->
  BarcodeValidator.is_valid_ean13 (<[i:=c']> code) = Return false.
Proof.
  intros Hv Hi Hc Hc' Hne.
  apply ean13_true_inv in Hv as (Hl & Hd & Hck).
  assert (Hd' : Spec.all_decimal_digits (<[i:=c']> code)).
  { apply all_decimal_insert; [exact Hd|]. unfold is_decimal_char. now rewrite Hc'. }
  rewrite ean13_decimal_value; [| unfold str in *; rewrite length_insert; exact Hl | exact Hd'].
  f_equal. apply Z.eqb_neq.
  pose proof (to_decimal_range _ _ Hc) as Rd. pose proof (to_decimal_range _ _ Hc') as Rd'.
  do 13 (destruct code as [|? code]; [discriminate|]).
  destruct code; [|discriminate]. clear Hl Hd'.
  unfold Spec.all_decimal_digits in Hd. split_forall. repeat use_digit.
  repeat match goal with H : to_decimal _ = Some ?x |- _ =>
    lazymatch goal with
    | _ : 0 <= x <= 9 |- _ => fail
    | _ => pose proof (to_decimal_range _ _ H)
    end end.
  unfold Spec.ean13_check_digit, Spec.digit_at in *. cbn [nth_error] in Hck.
  rewrite_digits_in Hck.
  do 13 (destruct i as [|i];
    [cbn in Hi; injection Hi as Hi; subst;
     match goal with
     | E1 : to_decimal ?n = Some ?x, E2 : to_decimal ?n = Some ?y |- _ =>
         assert (x = y) by congruence; subst; clear E2
     end;
     cbn [insert list_insert nth_error]; rewrite_digits;
     Z.to_euclidean_division_equations; lia|]).
  discriminate.
Qed.

Lemma upca_decimal_value (code : str) :
  length code = 12%nat -> Spec.all_decimal_digits code ->
  BarcodeValidator.is_valid_upca code
  = Return (Spec.upca_check_digit code =? Spec.digit_at code 11).
Proof.
  intros Hl Hd.
  do 12 (destruct code as [|? code]; [discriminate|]).
  destruct code; [|discriminate]. clear Hl.
  unfold Spec.all_decimal_digits in Hd. split_forall. repeat use_digit.
  unfold Spec.upca_check_digit, Spec.digit_at. cbn [nth_error].
  unfold BarcodeValidator.is_valid_upca.
  change (len _ =? 12) with true. cbn [negb isdigit forallb].
  rewrite_digits. cbn [andb negb].
  rewrite range_0_11_2, range_1_11_2.
  unfold sum_gen. cbn [sum_from]. eval_getitem. cbn [bind].
  unfold int_of_char. rewrite_digits. cbn [bind].
  do 2 f_equal. do 3 f_equal. lia.
Qed.

Ltac digit_ranges :=
  repeat match goal with
         | H : to_decimal _ = Some ?x |- _ =>
             lazymatch goal with
             | _ : 0 <= x <= 9 |- _ => fail
             | _ => pose proof (to_decimal_range _ _ H)
             end
         end.

(** X2. Replacing any one digit of a valid UPC-A code by a different digit
    gives a code that [is_valid_upca] rejects. *)
Theorem upca_detects_single_digit_error (code : str) (i : nat) (c c' : N) (d d' : Z) :
  BarcodeValidator.is_valid_upca code = Return true ->
  code !! i = Some c -> to_decimal c = Some d -> to_decimal c' = Some d' -> d <> d' ->
  BarcodeValidator.is_valid_upca (<[i:=c']> code) = Return false.
Proof.
  intros Hv Hi Hc Hc' Hne.
  apply upca_true_inv in Hv as (Hl & Hd & Hck).
  assert (Hd' : Spec.all_decimal_digits (<[i:=c']> code)).
  { apply all_decimal_insert; [exact Hd|]. unfold is_decimal_char. now rewrite Hc'. }
  rewrite upca_decimal_value; [| unfold str in *; rewrite length_insert; exact Hl | exact Hd'].
  f_equal. apply Z.eqb_neq.
  do 12 (destruct code as [|? code]; [discriminate|]).
  destruct code; [|discriminate]. clear Hl Hd'.
  unfold Spec.all_decimal_digits in Hd. split_forall. repeat use_digit.
  digit_ranges.
  unfold Spec.upca_check_digit, Spec.digit_at in *. cbn [nth_error] in Hck.
  rewrite_digits_in Hck.
  do 12 (destruct i as [|i];
    [cbn in Hi; injection Hi as Hi; subst;
     match goal with
     | E1 : to_decimal ?n = Some ?x, E2 : to_decimal ?n = Some ?y |- _ =>
         assert (x = y) by congruence; subst; clear E2
     end;
     cbn [insert list_insert nth_error]; rewrite_digits;
     Z.to_euclidean_division_equations; lia|]).
  discriminate.
Qed.

Lemma to_decimal_ascii_digit (d : Z) : 0 <= d <= 9 -> to_decimal (Spec.ascii_digit d) = Some d.
Proof.
  intros Hd.
  assert (Hc : d = 0 \/ d = 1 \/ d = 2 \/ d = 3 \/ d = 4 \/ d = 5 \/ d = 6 \/ d = 7
               \/ d = 8 \/ d = 9) by lia.
  repeat (destruct Hc as [->|Hc]; [reflexivity|]). subst. reflexivity.
Qed.

Lemma all_decimal_app (a b : str) :
  Spec.all_decimal_digits a -> Spec.all_decimal_digits b -> Spec.all_decimal_digits (a ++ b).
Proof. unfold Spec.all_decimal_digits. intros. now apply Forall_app. Qed.

(** X3. For twelve decimal digits there is exactly one check digit:
    [is_valid_ean13] accepts the code completed with the digit given by the
    check-digit formula and rejects it completed with any other digit. *)
Theorem ean13_check_digit_exists_unique (prefix : str) :
  length prefix = 12%nat -> Spec.all_decimal_digits prefix ->
  let d := Spec.ean13_check_digit prefix in
  0 <= d <= 9
  /\ BarcodeValidator.is_valid_ean13 (prefix ++ [Spec.ascii_digit d]) = Return true
  /\ forall (c : N) (d' : Z),
       to_decimal c = Some d' -> d' <> d ->
       BarcodeValidator.is_valid_ean13 (prefix ++ [c]) = Return false.
Proof.
  intros Hl Hd. cbv zeta.
  assert (Hr : 0 <= Spec.ean13_check_digit prefix <= 9).
  { unfold Spec.ean13_check_digit. Z.to_euclidean_division_equations. lia. }
  assert (Hval : forall c d', to_decimal c = Some d' ->
            BarcodeValidator.is_valid_ean13 (prefix ++ [c])
            = Return (Spec.ean13_check_digit prefix =? d')).
  { intros c d' Hc. rewrite ean13_decimal_value.
    - do 12 (destruct prefix as [|? prefix]; [discriminate|]).
      destruct prefix; [|discriminate].
      unfold Spec.ean13_check_digit, Spec.digit_at. cbn [app nth_error]. now rewrite Hc.
    - unfold str in *. rewrite length_app, Hl. reflexivity.
    - apply all_decimal_app; [exact Hd|]. repeat constructor.
      unfold is_decimal_char. now rewrite Hc. }
  split; [exact Hr|]. split.
  - rewrite (Hval _ _ (to_decimal_ascii_digit _ Hr)). now rewrite Z.eqb_refl.
  - intros c d' Hc Hne. rewrite (Hval _ _ Hc). f_equal. apply Z.eqb_neq. congruence.
Qed.

Lemma digit_runs_start :
  forallb (fun r => (0xb2 <=? fst (fst r))%N) digit_runs = true.
Proof. reflexivity. Qed.

(** Below SUPERSCRIPT TWO the digits are the decimal characters. *)
Lemma digit_is_decimal_below_b2 (c : N) :
  (c < 0xb2)%N -> is_digit_char c = true -> is_decimal_char c = true.
Proof.
  intros Hc. unfold is_digit_char, is_decimal_char, to_digit.
  destruct (to_decimal c); [trivial|].
  destruct (find _ digit_runs) as [r|] eqn:F; [|trivial].
  apply find_some in F as [Hin Hr].
  pose proof digit_runs_start as Hall. rewrite forallb_forall in Hall.
  specialize (Hall _ Hin). apply N.leb_le in Hall.
  apply andb_prop in Hr as [Hlo _]. apply N.leb_le in Hlo. lia.
Qed.

Lemma isdigit_forall (code : str) :
  isdigit code = true -> Forall (fun c => is_digit_char c = true) code.
Proof.
  destruct code as [|c code]; [discriminate|]. unfold isdigit.
  intros Hf. apply Forall_forall. intros x Hx.
  rewrite forallb_forall in Hf. apply Hf. now apply list_elem_of_In.
Qed.

Lemma ascii_digits_decimal (code : str) :
  Forall (fun c => (c < 128)%N) code -> isdigit code = true ->
  Spec.all_decimal_digits code.
Proof.
  intros Ha Hd. apply isdigit_forall in Hd. unfold Spec.all_decimal_digits.
  rewrite Forall_forall in *. intros c Hc.
  apply digit_is_decimal_below_b2; [specialize (Ha c Hc); lia|auto].
Qed.

(** X4. On a string of ASCII characters [is_valid_ean13] and [is_valid_upca]
    return a boolean: they never raise. *)
Theorem validators_return_on_ascii (code : str) :
  Forall (fun c => (c < 128)%N) code ->
  (exists b, BarcodeValidator.is_valid_ean13 code = Return b)
  /\ (exists b, BarcodeValidator.is_valid_upca code = Return b).
Proof.
  intros Ha. split.
  - destruct (Nat.eq_dec (length code) 13%nat) as [Hl|Hl];
      [|rewrite is_valid_ean13_wrong_length by exact Hl; eauto].
    destruct (isdigit code) eqn:Hd;
      [|rewrite is_valid_ean13_not_isdigit by exact Hd; eauto].
    rewrite ean13_decimal_value; eauto using ascii_digits_decimal.
  - destruct (Nat.eq_dec (length code) 12%nat) as [Hl|Hl];
      [|rewrite is_valid_upca_wrong_length by exact Hl; eauto].
    destruct (isdigit code) eqn:Hd;
      [|rewrite is_valid_upca_not_isdigit by exact Hd; eauto].
    rewrite upca_decimal_value; eauto using ascii_digits_decimal.
Qed.

(** X5. [validate_code] answers true for every code, whatever its characters,
    when the type is neither EAN13 nor UPCA (CODE128 and unknown types). *)
Theorem validate_code_other_types (code code_type : str) :
  code_type <> lit "EAN13" -> code_type <> lit "UPCA" ->
  BarcodeValidator.validate_code code code_type = Return true.
Proof.
  intros H1 H2. unfold BarcodeValidator.validate_code, BarcodeValidator.validators.
  rewrite (str_eqb_neq _ _ H1), (str_eqb_neq _ _ H2).
  destruct (str_eqb code_type (lit "CODE128")); reflexivity.
Qed.

Lemma count_app {A : Type} (test : A -> bool) (l1 l2 : list A) :
  Spec.count test (l1 ++ l2) = Spec.count test l1 + Spec.count test l2.
Proof. induction l1 as [|x l1 IH]; cbn [app Spec.count]; [lia|]. rewrite IH. lia. Qed.

Lemma statistics_add (self : CodeStorage.t) (info : CodeStorage.detection_info) :
  let self' := {| CodeStorage.detected_codes := CodeStorage.detected_codes self ++ [info];
                  CodeStorage.last_barcode := CodeStorage.last_barcode self;
                  CodeStorage.last_detection_time := CodeStorage.last_detection_time self;
                  CodeStorage.cooldown_seconds := CodeStorage.cooldown_seconds self |} in
  let before := CodeStorage.get_statistics self in
  let after := CodeStorage.get_statistics self' in
  CodeStorage.total after = CodeStorage.total before + 1
  /\ CodeStorage.valid after
     = CodeStorage.valid before + (if Spec.flagged_valid info then 1 else 0)
  /\ CodeStorage.pharmaceutical after
     = CodeStorage.pharmaceutical before + (if Spec.flagged_pharmaceutical info then 1 else 0)
  /\ CodeStorage.types_distribution after !! CodeStorage.get_tipo info
     = Some (match CodeStorage.types_distribution before !! CodeStorage.get_tipo info with
             | Some n => n | None => 0 end + 1)
  /\ (forall t : str, t <> CodeStorage.get_tipo info ->
        CodeStorage.types_distribution after !! t
        = CodeStorage.types_distribution before !! t).
Proof.
  cbv zeta.
  rewrite !types_distribution_lookup.
  cbn [CodeStorage.get_statistics CodeStorage.total CodeStorage.valid
         CodeStorage.pharmaceutical CodeStorage.detected_codes].
  rewrite !count_filter_length.
  change (fun code => CodeStorage.get_flag (CodeStorage.valido code)) with Spec.flagged_valid.
  change (fun code => CodeStorage.get_flag (CodeStorage.es_farmaceutico code))
    with Spec.flagged_pharmaceutical.
  rewrite !count_app. cbn [Spec.count].
  split; [rewrite length_app; cbn [length]; lia|].
  split; [lia|]. split; [lia|].
  split.
  - unfold Spec.type_count. rewrite count_app. cbn [Spec.count].
    assert (Hself : Spec.has_type (CodeStorage.get_tipo info) info = true)
      by apply str_eqb_refl.
    rewrite !Hself.
    pose proof (count_nonneg (Spec.has_type (CodeStorage.get_tipo info))
                  (CodeStorage.detected_codes self)) as Hn.
    destruct (_ + (1 + 0) =? 0) eqn:E1; [apply Z.eqb_eq in E1; lia|].
    destruct (Spec.count _ _ =? 0) eqn:E2; [apply Z.eqb_eq in E2; f_equal; lia|f_equal; lia].
  - intros t Ht. intros. rewrite !types_distribution_lookup.
    cbn [CodeStorage.detected_codes].
    unfold Spec.type_count. rewrite count_app. cbn [Spec.count].
    assert (Hother : Spec.has_type t info = false)
      by (apply str_eqb_neq; congruence).
    rewrite !Hother. now rewrite !Z.add_0_r.
Qed.

(** What [process_detected_code] stores. *)
Lemma process_detected_code_appends (self : CodeStorage.t)
    (barcode_data barcode_type now_text : str) (self' : CodeStorage.t) :
  BarcodeDetector.process_detected_code self barcode_data barcode_type now_text = Return self' ->
  exists is_valid : bool,
    BarcodeValidator.validate_code barcode_data barcode_type = Return is_valid
    /\ self' =
       {| CodeStorage.detected_codes :=
            CodeStorage.detected_codes self ++
            [ {| CodeStorage.codigo := barcode_data;
                 CodeStorage.tipo := Some barcode_type;
                 CodeStorage.timestamp := now_text;
                 CodeStorage.valido := Some is_valid;
                 CodeStorage.es_farmaceutico :=
                   Some (BarcodeValidator.is_pharmaceutical_code barcode_data barcode_type) |} ];
          CodeStorage.last_barcode := CodeStorage.last_barcode self;
          CodeStorage.last_detection_time := CodeStorage.last_detection_time self;
          CodeStorage.cooldown_seconds := CodeStorage.cooldown_seconds self |}.
Proof.
  unfold BarcodeDetector.process_detected_code.
  destruct (BarcodeValidator.validate_code barcode_data barcode_type) as [v|e];
    cbn [bind]; [|discriminate].
  intros [= <-]. exists v. split; reflexivity.
Qed.

(** X7. After [process_detected_code] has stored a code, [get_statistics]
    gives a total larger by one, a valid count larger by one exactly when
    [validate_code] answered true, a pharmaceutical count larger by one
    exactly when [is_pharmaceutical_code] holds, the count of the code type
    larger by one and the counts of the other types unchanged. *)
Theorem process_detected_code_statistics (self : CodeStorage.t)
    (barcode_data barcode_type now_text : str) (self' : CodeStorage.t) :
  BarcodeDetector.process_detected_code self barcode_data barcode_type now_text = Return self' ->
  exists is_valid : bool,
    BarcodeValidator.validate_code barcode_data barcode_type = Return is_valid
    /\ CodeStorage.total (CodeStorage.get_statistics self')
       = CodeStorage.total (CodeStorage.get_statistics self) + 1
    /\ CodeStorage.valid (CodeStorage.get_statistics self')
       = CodeStorage.valid (CodeStorage.get_statistics self) + (if is_valid then 1 else 0)
    /\ CodeStorage.pharmaceutical (CodeStorage.get_statistics self')
       = CodeStorage.pharmaceutical (CodeStorage.get_statistics self)
         + (if BarcodeValidator.is_pharmaceutical_code barcode_data barcode_type then 1 else 0)
    /\ CodeStorage.types_distribution (CodeStorage.get_statistics self') !! barcode_type
       = Some (match CodeStorage.types_distribution (CodeStorage.get_statistics self)
                     !! barcode_type with
               | Some n => n | None => 0 end + 1)
    /\ (forall t : str, t <> barcode_type ->
          CodeStorage.types_distribution (CodeStorage.get_statistics self') !! t
          = CodeStorage.types_distribution (CodeStorage.get_statistics self) !! t).
Proof.
  intros Hp. apply process_detected_code_appends in Hp as (v & Hv & ->).
  exists v. split; [exact Hv|].
  exact (statistics_add self
           {| CodeStorage.codigo := barcode_data;
              CodeStorage.tipo := Some barcode_type;
              CodeStorage.timestamp := now_text;
              CodeStorage.valido := Some v;
              CodeStorage.es_farmaceutico :=
                Some (BarcodeValidator.is_pharmaceutical_code barcode_data barcode_type) |}).
Qed.

(** X8. After [clear_history] the statistics are all zero with an empty type
    map, there are no duplicates, the cooldown setting is kept, and any
    payload is accepted at once. *)
Theorem clear_history_resets (self : CodeStorage.t) (payload : str) (current_time : Z) :
  let cleared := CodeStorage.clear_history self in
  CodeStorage.get_statistics cleared
  = {| CodeStorage.total := 0; CodeStorage.valid := 0; CodeStorage.invalid := 0;
       CodeStorage.pharmaceutical := 0; CodeStorage.non_pharmaceutical := 0;
       CodeStorage.types_distribution := ∅;
       CodeStorage.detection_rate := CodeStorage.Int 0 |}
  /\ CodeStorage.find_duplicates cleared = []
  /\ CodeStorage.cooldown_seconds cleared = CodeStorage.cooldown_seconds self
  /\ fst (CodeStorage.should_process_detection cleared payload current_time) = true.
Proof. cbv zeta. repeat split. Qed.

Lemma filter_sublist {A : Type} (test : A -> bool) (l : list A) :
  sublist (List.filter test l) l.
Proof.
  induction l as [|x l IH]; cbn [List.filter]; [constructor|].
  destruct (test x); [now apply sublist_skip|now apply sublist_cons].
Qed.

Lemma filter_partition {A : Type} (test : A -> bool) (l : list A) :
  List.filter test l ++ List.filter (fun x => negb (test x)) l ≡ₚ l.
Proof.
  induction l as [|x l IH]; cbn [List.filter]; [reflexivity|].
  destruct (test x); cbn [negb app].
  - now rewrite IH.
  - rewrite <- Permutation_middle. now rewrite IH.
Qed.

(** X9. [get_detected_codes] returns, in ledger order, exactly the entries
    whose flags equal the filters given; a filter left out ([None]) constrains
    nothing, and a missing flag counts as false. *)
Theorem get_detected_codes_filters (self : CodeStorage.t)
    (filter_valid filter_pharmaceutical : option bool) :
  let codes := CodeStorage.get_detected_codes self filter_valid filter_pharmaceutical in
  sublist codes (CodeStorage.detected_codes self)
  /\ (forall code : CodeStorage.detection_info,
        In code codes <->
        In code (CodeStorage.detected_codes self)
        /\ (forall wanted, filter_valid = Some wanted -> Spec.flagged_valid code = wanted)
        /\ (forall wanted, filter_pharmaceutical = Some wanted ->
              Spec.flagged_pharmaceutical code = wanted)).
Proof.
  cbv zeta. unfold CodeStorage.get_detected_codes. split.
  - destruct filter_valid, filter_pharmaceutical;
      repeat (etransitivity; [apply filter_sublist|]); reflexivity.
  - intros code. unfold Spec.flagged_valid, Spec.flagged_pharmaceutical.
    destruct filter_valid as [fv|], filter_pharmaceutical as [fp|];
      rewrite ?filter_In, ?Bool.eqb_true_iff; split.
    all: try (intros [[Hin Hv] Hp]); try (intros [Hin Hv]); try intros Hin.
    all: repeat split; try assumption; try congruence; try discriminate.
    all: try (intros w [= <-]; assumption).
    all: try (destruct Hv as [Hv1 Hv2]; first [apply Hv1 | apply Hv2]; reflexivity).
Qed.

(** X10. Without filters [get_detected_codes] is the whole ledger; the entries
    with filter_valid=True and those with filter_valid=False partition it, and
    their numbers are the [valid] and [invalid] counts of [get_statistics]. *)
Theorem get_detected_codes_partition (self : CodeStorage.t) :
  CodeStorage.get_detected_codes self None None = CodeStorage.detected_codes self
  /\ CodeStorage.get_detected_codes self (Some true) None
     ++ CodeStorage.get_detected_codes self (Some false) None
     ≡ₚ CodeStorage.detected_codes self
  /\ Z.of_nat (length (CodeStorage.get_detected_codes self (Some true) None))
     = CodeStorage.valid (CodeStorage.get_statistics self)
  /\ Z.of_nat (length (CodeStorage.get_detected_codes self (Some false) None))
     = CodeStorage.invalid (CodeStorage.get_statistics self).
Proof.
  unfold CodeStorage.get_detected_codes.
  assert (Ht : forall l : list CodeStorage.detection_info,
             List.filter (fun code => Bool.eqb (CodeStorage.get_flag (CodeStorage.valido code)) true) l
             = List.filter Spec.flagged_valid l).
  { intros l. apply filter_ext. intros a. unfold Spec.flagged_valid.
    now destruct (CodeStorage.get_flag _). }
  assert (Hf : forall l : list CodeStorage.detection_info,
             List.filter (fun code => Bool.eqb (CodeStorage.get_flag (CodeStorage.valido code)) false) l
             = List.filter (fun code => negb (Spec.flagged_valid code)) l).
  { intros l. apply filter_ext. intros a. unfold Spec.flagged_valid.
    now destruct (CodeStorage.get_flag _). }
  rewrite Ht, Hf.
  pose proof (filter_partition Spec.flagged_valid (CodeStorage.detected_codes self)) as Hp.
  split; [reflexivity|]. split; [exact Hp|].
  split; [reflexivity|].
  cbn [CodeStorage.get_statistics CodeStorage.invalid].
  apply Permutation_length in Hp. rewrite length_app in Hp.
  change (fun code => CodeStorage.get_flag (CodeStorage.valido code)) with Spec.flagged_valid.
  lia.
Qed.

Lemma rejected_keeps_state (storage : CodeStorage.t) (payload barcode_type now_text : str)
    (last_time current_time : Z) :
  CodeStorage.last_barcode storage = Some payload ->
  CodeStorage.last_detection_time storage = Some last_time ->
  CodeStorage.cooldown_elapsed storage last_time current_time = false ->
  BarcodeDetector.record_detection storage payload barcode_type current_time now_text
  = Return storage.
Proof.
  intros Hp Ht He.
  unfold BarcodeDetector.record_detection, CodeStorage.should_process_detection,
    CodeStorage.barcode_differs.
  now rewrite Hp, Ht, He, str_eqb_refl.
Qed.

(** The two outcomes of the recording step. *)
Lemma record_detection_cases (self : CodeStorage.t)
    (barcode_value barcode_type now_text : str) (current_time : Z) (self' : CodeStorage.t) :
  BarcodeDetector.record_detection self barcode_value barcode_type current_time now_text
  = Return self' ->
  let accepted :=
    fst (CodeStorage.should_process_detection self barcode_value current_time) in
  exists added : list CodeStorage.detection_info,
    CodeStorage.detected_codes self' = CodeStorage.detected_codes self ++ added
    /\ length added = (if accepted then 1%nat else 0%nat)
    /\ Forall (fun code => CodeStorage.codigo code = barcode_value
                           /\ CodeStorage.tipo code = Some barcode_type
                           /\ CodeStorage.timestamp code = now_text) added
    /\ CodeStorage.cooldown_seconds self' = CodeStorage.cooldown_seconds self
    /\ (accepted = true ->
        CodeStorage.last_barcode self' = Some barcode_value
        /\ CodeStorage.last_detection_time self' = Some current_time)
    /\ (accepted = false -> self' = self).
Proof.
  unfold BarcodeDetector.record_detection, CodeStorage.should_process_detection.
  destruct (_ || _); cbn [fst snd].
  - intros Hp. apply process_detected_code_appends in Hp as (v & Hv & ->).
    eexists. cbn. split; [reflexivity|]. repeat split; try discriminate.
    repeat constructor.
  - intros [= <-]. exists []. rewrite app_nil_r. repeat split; try discriminate.
    constructor.
Qed.

(** X12. The recording step of [process_frame] only appends to the ledger: it
    adds exactly one entry (for the payload, its type and the current time
    text) when the gate accepts and nothing, leaving the whole state as it
    was, when the gate rejects. *)
Theorem record_detection_appends_when_accepted (self : CodeStorage.t)
    (barcode_value barcode_type now_text : str) (current_time : Z) (self' : CodeStorage.t) :
  BarcodeDetector.record_detection self barcode_value barcode_type current_time now_text
  = Return self' ->
  let accepted :=
    fst (CodeStorage.should_process_detection self barcode_value current_time) in
  exists added : list CodeStorage.detection_info,
    CodeStorage.detected_codes self' = CodeStorage.detected_codes self ++ added
    /\ length added = (if accepted then 1%nat else 0%nat)
    /\ Forall (fun code => CodeStorage.codigo code = barcode_value
                           /\ CodeStorage.tipo code = Some barcode_type
                           /\ CodeStorage.timestamp code = now_text) added
    /\ CodeStorage.cooldown_seconds self' = CodeStorage.cooldown_seconds self
    /\ (accepted = true ->
        CodeStorage.last_barcode self' = Some barcode_value
        /\ CodeStorage.last_detection_time self' = Some current_time)
    /\ (accepted = false -> self' = self).
Proof. apply record_detection_cases. Qed.

(** X13. A payload that was accepted and recorded, and is seen again before
    the cooldown has elapsed since that acceptance, is not recorded again: the
    state stays as it was after the first recording. *)
Theorem repeated_payload_recorded_once (self : CodeStorage.t)
    (payload barcode_type text1 text2 : str) (time1 time2 : Z) (self1 : CodeStorage.t) :
  fst (CodeStorage.should_process_detection self payload time1) = true ->
  BarcodeDetector.record_detection self payload barcode_type time1 text1 = Return self1 ->
  CodeStorage.cooldown_elapsed self time1 time2 = false ->
  BarcodeDetector.record_detection self1 payload barcode_type time2 text2 = Return self1
  /\ length (CodeStorage.detected_codes self1)
     = S (length (CodeStorage.detected_codes self)).
Proof.
  intros Hacc Hrec Hcool.
  destruct (record_detection_cases _ _ _ _ _ _ Hrec)
    as (added & Hcodes & Hlen & _ & Hcd & Hlast & _).
  rewrite Hacc in Hlen. destruct (Hlast Hacc) as [Hb Ht].
  split.
  - apply (rejected_keeps_state self1 payload barcode_type text2 time1 time2);
      [exact Hb|exact Ht|].
    unfold CodeStorage.cooldown_elapsed in *. now rewrite Hcd.
  - rewrite Hcodes, length_app, Hlen. lia.
Qed.

Abbreviation groups := (list (str * list CodeStorage.detection_info)).

Lemma group_of_add (G : groups) (x : CodeStorage.detection_info) (k : str) :
  Spec.group_of (CodeStorage.code_counts_add G x) k
  = Spec.group_of G k ++ (if Spec.has_code k x then [x] else []).
Proof.
  unfold Spec.group_of, Spec.has_code. induction G as [|[k' occ] G IH]; cbn [CodeStorage.code_counts_add find fst snd].
  - destruct (str_eqb (CodeStorage.codigo x) k); reflexivity.
  - destruct (str_eqb k' (CodeStorage.codigo x)) eqn:E1; cbn [find fst snd].
    + apply str_eqb_eq in E1. subst k'.
      destruct (str_eqb (CodeStorage.codigo x) k); [reflexivity|now rewrite app_nil_r].
    + destruct (str_eqb k' k) eqn:E2; [|exact IH].
      apply str_eqb_eq in E2. subst k'.
      destruct (str_eqb (CodeStorage.codigo x) k) eqn:E3; [|now rewrite app_nil_r].
      apply str_eqb_eq in E3. subst k. now rewrite str_eqb_refl in E1.
Qed.

Lemma keys_add (G : groups) (x : CodeStorage.detection_info) :
  map fst (CodeStorage.code_counts_add G x)
  = if existsb (fun k => str_eqb k (CodeStorage.codigo x)) (map fst G)
    then map fst G else map fst G ++ [CodeStorage.codigo x].
Proof.
  induction G as [|[k' occ] G IH]; cbn [CodeStorage.code_counts_add map fst existsb]; [reflexivity|].
  destruct (str_eqb k' (CodeStorage.codigo x)); cbn [map fst orb]; [reflexivity|].
  rewrite IH. now destruct (existsb _ _).
Qed.

Lemma keys_add_NoDup (G : groups) (x : CodeStorage.detection_info) :
  NoDup (map fst G) -> NoDup (map fst (CodeStorage.code_counts_add G x)).
Proof.
  intros Hnd. rewrite keys_add.
  destruct (existsb _ _) eqn:E; [exact Hnd|].
  apply NoDup_app. split; [exact Hnd|]. split; [|apply NoDup_singleton].
  intros k Hk Hx. apply list_elem_of_singleton in Hx. subst k.
  assert (Ht : existsb (fun k => str_eqb k (CodeStorage.codigo x)) (map fst G) = true).
  { apply existsb_exists. exists (CodeStorage.codigo x).
    split; [now apply list_elem_of_In|apply str_eqb_refl]. }
  congruence.
Qed.

Lemma groups_nonempty_add (G : groups) (x : CodeStorage.detection_info) :
  Forall (fun item => snd item <> []) G ->
  Forall (fun item => snd item <> []) (CodeStorage.code_counts_add G x).
Proof.
  induction G as [|[k' occ] G IH]; cbn [CodeStorage.code_counts_add]; intros Hne.
  - repeat constructor. discriminate.
  - apply Forall_cons_1 in Hne as [H1 H2].
    destruct (str_eqb k' _); constructor; cbn [snd] in *; auto.
    destruct occ; discriminate.
Qed.

Lemma filter_snoc {A : Type} (test : A -> bool) (l : list A) (x : A) :
  List.filter test (l ++ [x]) = List.filter test l ++ (if test x then [x] else []).
Proof.
  induction l as [|a l IH]; cbn [app List.filter]; [now destruct (test x)|].
  rewrite IH. now destruct (test a).
Qed.

(** The dictionary built by the first loop. *)
Lemma code_counts_invariant (codes : list CodeStorage.detection_info) :
  let G := fold_left CodeStorage.code_counts_add codes [] in
  NoDup (map fst G)
  /\ Forall (fun item => snd item <> []) G
  /\ forall k, Spec.group_of G k = Spec.occurrences_of codes k.
Proof.
  cbv zeta. induction codes as [|x codes IH] using rev_ind.
  - repeat split; constructor.
  - rewrite fold_left_app. cbn [fold_left]. destruct IH as (Hnd & Hne & Hg).
    split; [now apply keys_add_NoDup|]. split; [now apply groups_nonempty_add|].
    intros k. rewrite group_of_add, Hg. unfold Spec.occurrences_of. now rewrite filter_snoc.
Qed.

Lemma group_of_In (G : groups) (k : str) (occ : list CodeStorage.detection_info) :
  NoDup (map fst G) -> In (k, occ) G -> Spec.group_of G k = occ.
Proof.
  unfold Spec.group_of. induction G as [|[k' occ'] G IH]; cbn [In map fst find snd]; [tauto|].
  intros Hnd [Heq|Hin].
  - injection Heq as -> ->. now rewrite str_eqb_refl.
  - apply NoDup_cons in Hnd as [Hnotin Hnd].
    destruct (str_eqb k' k) eqn:E; [|now apply IH].
    apply str_eqb_eq in E. subst k'. exfalso. apply Hnotin.
    apply list_elem_of_In. apply in_map_iff. now exists (k, occ).
Qed.

Lemma In_group_of (G : groups) (k : str) :
  Spec.group_of G k <> [] -> In (k, Spec.group_of G k) G.
Proof.
  unfold Spec.group_of. destruct (find _ G) as [[k' occ]|] eqn:F; [|congruence].
  intros _. apply find_some in F as [Hin Hk]. cbn [fst snd] in *.
  apply str_eqb_eq in Hk. now subst.
Qed.

(** The second loop keeps the groups with more than one entry. *)
Lemma duplicates_loop (G : groups) (acc : list CodeStorage.duplicate) :
  fold_left CodeStorage.duplicates_add G acc
  = acc ++ map (fun item => {| CodeStorage.dup_codigo := fst item;
                               CodeStorage.dup_count := Z.of_nat (length (snd item));
                               CodeStorage.dup_occurrences := snd item |})
               (List.filter (fun item => Z.of_nat (length (snd item)) >? 1) G).
Proof.
  revert acc. induction G as [|[k occ] G IH]; intros acc; cbn [fold_left List.filter].
  - now rewrite app_nil_r.
  - rewrite IH. unfold CodeStorage.duplicates_add. cbn [fst snd].
    destruct (Z.of_nat (length occ) >? 1); [|reflexivity].
    cbn [map fst snd]. now rewrite <- app_assoc.
Qed.

(** X11. [find_duplicates] reports a code exactly when it occurs at least
    twice in the ledger, once per code, with all its entries in ledger order
    and their number as count. *)
Theorem find_duplicates_spec (self : CodeStorage.t) :
  let codes := CodeStorage.detected_codes self in
  (forall d : CodeStorage.duplicate,
      In d (CodeStorage.find_duplicates self) <->
      CodeStorage.dup_occurrences d = Spec.occurrences_of codes (CodeStorage.dup_codigo d)
      /\ CodeStorage.dup_count d = Z.of_nat (length (CodeStorage.dup_occurrences d))
      /\ 2 <= CodeStorage.dup_count d)
  /\ NoDup (map CodeStorage.dup_codigo (CodeStorage.find_duplicates self)).
Proof.
  cbv zeta. unfold CodeStorage.find_duplicates. rewrite duplicates_loop. cbn [app].
  destruct (code_counts_invariant (CodeStorage.detected_codes self)) as (Hnd & Hne & Hg).
  set (G := fold_left CodeStorage.code_counts_add (CodeStorage.detected_codes self) []) in *.
  split.
  - intros d. rewrite in_map_iff. split.
    + intros ([k occ] & <- & Hin). apply filter_In in Hin as [Hin Hbig].
      cbn [fst snd CodeStorage.dup_codigo CodeStorage.dup_count CodeStorage.dup_occurrences] in *.
      rewrite <- Hg, (group_of_In _ _ _ Hnd Hin). repeat split. lia.
    + intros (Hocc & Hcount & Hbig). destruct d as [k n occ].
      cbn [CodeStorage.dup_codigo CodeStorage.dup_count CodeStorage.dup_occurrences] in *.
      exists (k, occ). cbn [fst snd]. split; [now subst n|].
      apply filter_In. cbn [snd]. split; [|lia].
      rewrite <- Hg in Hocc. subst occ. apply In_group_of.
      intros Hnil. rewrite Hnil in Hcount. cbn in Hcount. lia.
  - rewrite map_map. cbn [CodeStorage.dup_codigo].
    apply (NoDup_fmap_2_strong fst); [|].
    + intros [k1 o1] [k2 o2] H1 H2 Hk. cbn [fst] in Hk. subst k2.
      apply list_elem_of_In, filter_In in H1 as [H1 _].
      apply list_elem_of_In, filter_In in H2 as [H2 _].
      rewrite <- (group_of_In _ _ _ Hnd H1), <- (group_of_In _ _ _ Hnd H2). reflexivity.
    + apply NoDup_ListNoDup. apply List.NoDup_filter. apply NoDup_ListNoDup.
      eapply NoDup_fmap_1. exact Hnd.
Qed.

(** X14. [handle_keyboard_input] keeps the processing mode within the five
    modes, asks to stop only for the key q, changes the storage only for the
    key c (which empties the ledger and the gate), changes the mode only for
    the key s, and five presses of s bring the detector back to where it was.
    *)
Theorem handle_keyboard_input_effects (self : BarcodeDetector.detector) (key : Z) :
  0 <= BarcodeDetector.processing_mode self < 5 ->
  let continue := fst (BarcodeDetector.handle_keyboard_input self key) in
  let self' := snd (BarcodeDetector.handle_keyboard_input self key) in
  0 <= BarcodeDetector.processing_mode self' < 5
  /\ (continue = false <-> key = 113)
  /\ (key <> 99 -> BarcodeDetector.storage self' = BarcodeDetector.storage self)
  /\ (key = 99 ->
      CodeStorage.detected_codes (BarcodeDetector.storage self') = []
      /\ CodeStorage.last_barcode (BarcodeDetector.storage self') = None)
  /\ (key <> 115 -> BarcodeDetector.processing_mode self' = BarcodeDetector.processing_mode self)
  /\ Spec.press 5 115 self = self.
Proof.
  intros Hm. cbv zeta. unfold BarcodeDetector.handle_keyboard_input.
  change (BarcodeDetector.ord "q") with 113. change (BarcodeDetector.ord "c") with 99.
  change (BarcodeDetector.ord "s") with 115. change (BarcodeDetector.ord "e") with 101.
  change (BarcodeDetector.ord "r") with 114.
  change (Z.of_nat (length BarcodeDetector.processing_modes)) with 5.
  split; [|split; [|split; [|split; [|split]]]].
  - repeat (destruct (key =? _); cbn [snd BarcodeDetector.processing_mode]; try lia).
    apply Z.mod_pos_bound. lia.
  - destruct (key =? 113) eqn:E; [apply Z.eqb_eq in E; cbn; tauto|].
    apply Z.eqb_neq in E. repeat (destruct (key =? _); cbn [fst]); split; congruence.
  - intros Hk. apply Z.eqb_neq in Hk. rewrite Hk.
    repeat (destruct (key =? _); cbn [snd BarcodeDetector.storage]; try reflexivity).
  - intros ->. cbn. split; reflexivity.
  - intros Hk. apply Z.eqb_neq in Hk. rewrite Hk.
    repeat (destruct (key =? _); cbn [snd BarcodeDetector.processing_mode]; try reflexivity).
  - destruct self as [st m]. cbn [BarcodeDetector.processing_mode] in Hm.
    cbn [Spec.press]. unfold BarcodeDetector.handle_keyboard_input.
    change (BarcodeDetector.ord "q") with 113. change (BarcodeDetector.ord "c") with 99.
    change (BarcodeDetector.ord "s") with 115.
    change (Z.of_nat (length BarcodeDetector.processing_modes)) with 5.
    cbn [Z.eqb Pos.eqb snd BarcodeDetector.storage BarcodeDetector.processing_mode].
    f_equal. Z.to_euclidean_division_equations. lia.
Qed.

Lemma divided_coordinate_1 (v : Z) : Spec.divided_coordinate v 1 = v.
Proof.
  unfold Spec.divided_coordinate, Spec.truncate. cbn.
  rewrite Z.mul_1_r. apply Z.quot_1_r.
Qed.

(** X15. A box found at scale 1.0 is drawn where it was found: [int(v / 1.0)]
    is [v] for coordinates of absolute value below 2048. *)
Theorem adjusted_rect_native_scale (x y w h : Z) :
  -2048 < x < 2048 -> -2048 < y < 2048 -> -2048 < w < 2048 -> -2048 < h < 2048 ->
  DisplayManager.adjusted_rect (x, y, w, h) Float64.f1_0 = Return (x, y, w, h).
Proof.
  intros Hx Hy Hw Hh. unfold DisplayManager.adjusted_rect.
  assert (Hs : In (Float64.f1_0, 1%Q) Spec.decimal_scales) by (left; reflexivity).
  rewrite (adjust_divided_coordinate x _ _ Hs Hx), (adjust_divided_coordinate y _ _ Hs Hy),
    (adjust_divided_coordinate w _ _ Hs Hw), (adjust_divided_coordinate h _ _ Hs Hh).
  cbn [bind]. now rewrite !divided_coordinate_1.
Qed.

(** X18. For a rectangle inside the frame, the slice taken by
    [enhance_barcode_region] lies inside the frame, contains the rectangle and
    extends it by at most the padding of 10 on each side. *)
Theorem enhance_barcode_region_bounds_inside (height width x y w h : Z) :
  0 <= x -> 0 <= y -> 0 <= w -> 0 <= h -> x + w <= width -> y + h <= height ->
  let '((y_start, y_end), (x_start, x_end)) :=
    ImageProcessor.enhance_barcode_region_bounds (height, width) (x, y, w, h) in
  0 <= x_start <= x /\ x + w <= x_end <= width
  /\ 0 <= y_start <= y /\ y + h <= y_end <= height
  /\ x - x_start <= 10 /\ x_end - (x + w) <= 10
  /\ y - y_start <= 10 /\ y_end - (y + h) <= 10.
Proof.
  intros. unfold ImageProcessor.enhance_barcode_region_bounds. cbn [fst snd]. lia.
Qed.

Section SearchExtras.
Context `{Vision image}.

Lemma candidates_scale (representations : list image) (p : image * Float64.float) :
  In p (Spec.candidates representations) -> In (snd p) Config.scales.
Proof.
  unfold Spec.candidates. rewrite in_flat_map. intros (r & _ & Hp).
  apply in_map_iff in Hp as (s & <- & Hs). exact Hs.
Qed.

(** X16. The scale returned by the search of [process_frame] is one of the
    configured scales, so the box of every symbol found (coordinates of
    absolute value below 2048) is computed by [draw_barcode_info] without a
    division by zero or any other exception. *)
Theorem process_frame_search_scale (frame : image) :
  let found := fst (BarcodeDetector.process_frame_search frame) in
  In (snd found) Config.scales
  /\ forall barcode : Decoded,
       In barcode (fst found) ->
       (let '(x, y, w, h) := rect barcode in
        -2048 < x < 2048 /\ -2048 < y < 2048 /\ -2048 < w < 2048 /\ -2048 < h < 2048) ->
       exists box, DisplayManager.adjusted_rect (rect barcode) (snd found) = Return box.
Proof.
  cbv zeta. unfold BarcodeDetector.process_frame_search.
  cbn [ImageProcessor.preprocess_frame]. rewrite frame_loop_spec. cbn [fst].
  assert (Hs : In (snd (Spec.first_result (Spec.candidates
             [frame; cvtColor_gray frame; clahe_apply (cvtColor_gray frame);
              adaptiveThreshold (cvtColor_gray frame);
              morphologyEx_close (adaptiveThreshold (cvtColor_gray frame))]))) Config.scales).
  { unfold Spec.first_result. destruct (find Spec.hit _) as [p|] eqn:F.
    - apply find_some in F as [Hin _]. cbn [snd]. eapply candidates_scale, Hin.
    - left. reflexivity. }
  split; [exact Hs|].
  intros barcode _ Hr. destruct (rect barcode) as [[[x y] w] h].
  destruct Hr as (Hx & Hy & Hw & Hh).
  assert (Hq : exists q, In (snd (Spec.first_result (Spec.candidates
             [frame; cvtColor_gray frame; clahe_apply (cvtColor_gray frame);
              adaptiveThreshold (cvtColor_gray frame);
              morphologyEx_close (adaptiveThreshold (cvtColor_gray frame))])), q)
             Spec.decimal_scales).
  { revert Hs. generalize (snd (Spec.first_result (Spec.candidates
             [frame; cvtColor_gray frame; clahe_apply (cvtColor_gray frame);
              adaptiveThreshold (cvtColor_gray frame);
              morphologyEx_close (adaptiveThreshold (cvtColor_gray frame))]))).
    intros s Hs. cbn in Hs.
    destruct Hs as [<-|[<-|[<-|[<-|[]]]]]; eexists; cbn; eauto 6. }
  destruct Hq as [q Hq]. unfold DisplayManager.adjusted_rect.
  rewrite (adjust_divided_coordinate x _ _ Hq Hx), (adjust_divided_coordinate y _ _ Hq Hy),
    (adjust_divided_coordinate w _ _ Hq Hw), (adjust_divided_coordinate h _ _ Hq Hh).
  cbn [bind]. eauto.
Qed.

Lemma resized_positive_2048 :
  forallb (Spec.resized_positive (Spec.count_up 2 (Z.to_nat 2046))) Config.scales = true.
Proof. vm_compute. reflexivity. Qed.

Lemma resized_dimension_positive (v : Z) (scale : Float64.float) :
  In scale Config.scales -> 2 <= v < 2048 ->
  exists n, (fv <- Float64.int_mul_float v scale ;; Float64.to_int fv) = Return n /\ 0 < n.
Proof.
  intros Hs Hv. pose proof resized_positive_2048 as Hall.
  rewrite forallb_forall in Hall. specialize (Hall _ Hs).
  unfold Spec.resized_positive in Hall. rewrite forallb_forall in Hall.
  assert (Hin : In v (Spec.count_up 2 (Z.to_nat 2046))).
  { apply count_up_In. rewrite Z2Nat.id by lia. lia. }
  specialize (Hall v Hin).
  destruct (fv <- Float64.int_mul_float v scale;; Float64.to_int fv) as [n|]; [|discriminate].
  exists n. split; [reflexivity|lia].
Qed.

(** X17. For a filtered image whose height and width are between 2 and 2047,
    no configured scale is skipped for a non-positive resized dimension; at
    scale 1.0 the filtered image is decoded as it is. *)
Theorem decode_at_scale_never_skips (filtered : image) (scale : Float64.float) :
  In scale Config.scales ->
  2 <= fst (shape filtered) < 2048 -> 2 <= snd (shape filtered) < 2048 ->
  ImageProcessor.decode_at_scale filtered scale <> Return None
  /\ (ImageProcessor.decode_at_scale filtered Float64.f1_0
      = (barcodes <- pyzbar_decode filtered ;; Return (Some barcodes))).
Proof.
  intros Hs Hh Hw. split; [|reflexivity].
  unfold ImageProcessor.decode_at_scale.
  destruct (negb (Float64.eqb scale Float64.f1_0)).
  - destruct (shape filtered) as [height width]. cbn [fst snd] in *.
    destruct (resized_dimension_positive width scale Hs Hw) as (nw & Hnw & Hpw).
    destruct (resized_dimension_positive height scale Hs Hh) as (nh & Hnh & Hph).
    destruct (Float64.int_mul_float width scale) as [fw|]; cbn [bind] in *; [|discriminate].
    rewrite Hnw. cbn [bind].
    destruct (Float64.int_mul_float height scale) as [fh|]; cbn [bind] in *; [|discriminate].
    rewrite Hnh. cbn [bind].
    replace (nw >? 0) with true by (symmetry; apply Z.gtb_lt; lia).
    replace (nh >? 0) with true by (symmetry; apply Z.gtb_lt; lia).
    cbn [andb].
    repeat match goal with
           | |- bind ?r _ <> _ => destruct r; cbn [bind]
           end; discriminate.
  - destruct (pyzbar_decode filtered); cbn [bind]; discriminate.
Qed.
End SearchExtras.

(** X6. The detector's classification [is_pharmaceutical_code] and the
    storage's own [_is_pharmaceutical_type] give the same answer except on
    EAN13 codes of length 13, where the detector's also asks for one of the
    pharmaceutical prefixes. *)
Theorem pharmaceutical_classifiers_agree (code code_type : str) :
  ~ (code_type = lit "EAN13" /\ length code = 13%nat) ->
  BarcodeValidator.is_pharmaceutical_code code code_type
  = CodeStorage._is_pharmaceutical_type code_type.
Proof.
  intros Hn. unfold BarcodeValidator.is_pharmaceutical_code, CodeStorage._is_pharmaceutical_type.
  change BarcodeValidator.pharmaceutical_types with [lit "EAN13"; lit "UPCA"; lit "CODE128"].
  destruct (existsb _ _); cbn [negb]; [|reflexivity].
  destruct (str_eqb code_type (lit "EAN13")) eqn:E1; cbn [andb]; [|reflexivity].
  destruct (len code =? 13) eqn:E2; [|reflexivity].
  exfalso. apply Hn. apply str_eqb_eq in E1. apply Z.eqb_eq in E2. unfold len in E2.
  split; [exact E1|lia].
Qed.

(** ** Consistency of the statistics *)

Lemma sum_counts_insert (m : gmap (list N) Z) (k : list N) (n : Z) :
  Spec.sum_counts (<[k:=n]> m) = Spec.sum_counts m - match m !! k with Some old => old | None => 0 end + n.
Proof.
  unfold Spec.sum_counts.
  assert (Hc : forall (j1 j2 : list N) (z1 z2 y : Z), z1 + (z2 + y) = z2 + (z1 + y))
    by (intros; lia).
  destruct (m !! k) as [old|] eqn:E.
  - rewrite <- (insert_delete_id m k old E) at 2.
    rewrite <- (insert_delete_eq m k n).
    rewrite !map_fold_insert_L; try (intros; lia); try apply lookup_delete_eq.
  - rewrite map_fold_insert_L; try (intros; lia); try exact E.
Qed.

Lemma sum_counts_fold (codes : list CodeStorage.detection_info) (m : gmap (list N) Z) :
  Spec.sum_counts (fold_left CodeStorage.count_type codes m)
  = Spec.sum_counts m + Z.of_nat (length codes).
Proof.
  revert m. induction codes as [|code codes IH]; intros m; cbn [fold_left length]; [lia|].
  rewrite IH. unfold CodeStorage.count_type. rewrite sum_counts_insert.
  rewrite Nat2Z.inj_succ. generalize (Z.of_nat (length codes)). intros len.
  unfold str. destruct (m !! CodeStorage.get_tipo code); lia.
Qed.

(** X19. The statistics are consistent: the per-type counts add up to the
    total, valid and invalid add up to the total, and neither the invalid nor
    the non-pharmaceutical count is negative. *)
Theorem statistics_counts_are_consistent (self : CodeStorage.t) :
  Spec.sum_counts (CodeStorage.types_distribution (CodeStorage.get_statistics self))
  = CodeStorage.total (CodeStorage.get_statistics self)
  /\ CodeStorage.valid (CodeStorage.get_statistics self)
     + CodeStorage.invalid (CodeStorage.get_statistics self)
     = CodeStorage.total (CodeStorage.get_statistics self)
  /\ 0 <= CodeStorage.invalid (CodeStorage.get_statistics self)
  /\ 0 <= CodeStorage.non_pharmaceutical (CodeStorage.get_statistics self).
Proof.
  cbn [CodeStorage.get_statistics CodeStorage.types_distribution CodeStorage.total
         CodeStorage.valid CodeStorage.invalid CodeStorage.non_pharmaceutical].
  rewrite sum_counts_fold, !count_filter_length.
  pose proof (count_le_length (fun code => CodeStorage.get_flag (CodeStorage.valido code))
                (CodeStorage.detected_codes self)).
  pose proof (count_le_length (fun code => CodeStorage.get_flag (CodeStorage.es_farmaceutico code))
                (CodeStorage.detected_codes self)).
  unfold Spec.sum_counts. rewrite map_fold_empty. lia.
Qed.

(** ** The theorems above at concrete inputs *)

Lemma ean13_detects_single_digit_error_witness :
  BarcodeValidator.is_valid_ean13 (<[0%nat:=53%N]> (lit "4006381333931")) = Return false.
Proof.
  apply (ean13_detects_single_digit_error (lit "4006381333931") 0 52 53 4 5);
    [reflexivity | reflexivity | reflexivity | reflexivity | lia].
Defined.

Lemma upca_detects_single_digit_error_witness :
  BarcodeValidator.is_valid_upca (<[11%nat:=51%N]> (lit "036000291452")) = Return false.
Proof.
  apply (upca_detects_single_digit_error (lit "036000291452") 11 50 51 2 3);
    [reflexivity | reflexivity | reflexivity | reflexivity | lia].
Defined.

Lemma ean13_check_digit_exists_unique_witness :
  BarcodeValidator.is_valid_ean13
    (lit "400638133393" ++ [Spec.ascii_digit (Spec.ean13_check_digit (lit "400638133393"))])
  = Return true.
Proof.
  apply (ean13_check_digit_exists_unique (lit "400638133393"));
    [reflexivity | repeat constructor].
Defined.

Lemma validators_return_on_ascii_witness :
  (exists b, BarcodeValidator.is_valid_ean13 (lit "ABC-1234567890") = Return b)
  /\ (exists b, BarcodeValidator.is_valid_upca (lit "ABC-1234567890") = Return b).
Proof.
  apply (validators_return_on_ascii (lit "ABC-1234567890")).
  repeat constructor.
Defined.

Lemma validate_code_other_types_witness :
  BarcodeValidator.validate_code (repeat 0xb2%N 13) (lit "QRCODE") = Return true.
Proof.
  apply (validate_code_other_types (repeat 0xb2%N 13) (lit "QRCODE")); discriminate.
Defined.

Lemma pharmaceutical_classifiers_agree_witness :
  BarcodeValidator.is_pharmaceutical_code (lit "036000291452") (lit "UPCA")
  = CodeStorage._is_pharmaceutical_type (lit "UPCA").
Proof.
  apply (pharmaceutical_classifiers_agree (lit "036000291452") (lit "UPCA")).
  intros [Ht _]. discriminate Ht.
Defined.

Lemma process_detected_code_statistics_witness :
  exists is_valid : bool,
    BarcodeValidator.validate_code (lit "4006381333931") (lit "EAN13") = Return is_valid
    /\ CodeStorage.total
         (CodeStorage.get_statistics
            (snd (CodeStorage.add_detected_code CodeStorage.init (lit "4006381333931")
                    (lit "EAN13") true
                    (Some (fun d => {| CodeStorage.codigo := CodeStorage.codigo d;
                                       CodeStorage.tipo := CodeStorage.tipo d;
                                       CodeStorage.timestamp := CodeStorage.timestamp d;
                                       CodeStorage.valido := CodeStorage.valido d;
                                       CodeStorage.es_farmaceutico := Some false |}))
                    (lit "2024-01-01 10:00:00"))))
       = CodeStorage.total (CodeStorage.get_statistics CodeStorage.init) + 1.
Proof.
  destruct (process_detected_code_statistics CodeStorage.init (lit "4006381333931")
              (lit "EAN13") (lit "2024-01-01 10:00:00") _ eq_refl) as (v & Hv & Ht & _).
  exists v. split; [exact Hv|exact Ht].
Defined.

Lemma record_detection_appends_when_accepted_witness :
  exists added : list CodeStorage.detection_info,
    length added = 1%nat
    /\ Forall (fun code => CodeStorage.codigo code = lit "ABC-123") added.
Proof.
  destruct (record_detection_appends_when_accepted CodeStorage.init (lit "ABC-123")
              (lit "CODE128") (lit "2024-01-01 10:00:00") 0 _ eq_refl)
    as (added & _ & Hlen & Hall & _).
  exists added. split; [exact Hlen|].
  eapply Forall_impl; [exact Hall|]. intros code Hc. exact (proj1 Hc).
Defined.

Lemma repeated_payload_recorded_once_witness :
  exists self1 : CodeStorage.t,
    BarcodeDetector.record_detection self1 (lit "ABC-123") (lit "CODE128") 1500000
      (lit "2024-01-01 10:00:01") = Return self1
    /\ length (CodeStorage.detected_codes self1) = 1%nat.
Proof.
  eexists.
  apply (repeated_payload_recorded_once CodeStorage.init (lit "ABC-123") (lit "CODE128")
           (lit "2024-01-01 10:00:00") (lit "2024-01-01 10:00:01") 0 1500000);
    reflexivity.
Defined.

Lemma handle_keyboard_input_effects_witness :
  Spec.press 5 115
    {| BarcodeDetector.storage := CodeStorage.init; BarcodeDetector.processing_mode := 3 |}
  = {| BarcodeDetector.storage := CodeStorage.init; BarcodeDetector.processing_mode := 3 |}.
Proof.
  apply (handle_keyboard_input_effects
           {| BarcodeDetector.storage := CodeStorage.init;
              BarcodeDetector.processing_mode := 3 |} 115).
  cbn. lia.
Defined.

Lemma adjusted_rect_native_scale_witness :
  DisplayManager.adjusted_rect (120, 120, 60, 30) Float64.f1_0 = Return (120, 120, 60, 30).
Proof. apply (adjusted_rect_native_scale 120 120 60 30); lia. Defined.

Lemma decode_at_scale_never_skips_witness :
  @ImageProcessor.decode_at_scale _ Spec.blank_vision (720, 1280) Float64.f0_8
  <> Return None.
Proof.
  apply (@decode_at_scale_never_skips _ Spec.blank_vision (720, 1280) Float64.f0_8);
    [cbn; tauto | cbn; lia | cbn; lia].
Defined.

Lemma enhance_barcode_region_bounds_inside_witness :
  let '((y_start, y_end), (x_start, x_end)) :=
    ImageProcessor.enhance_barcode_region_bounds (720, 1280) (5, 700, 60, 20) in
  0 <= x_start <= 5 /\ 5 + 60 <= x_end <= 1280
  /\ 0 <= y_start <= 700 /\ 700 + 20 <= y_end <= 720
  /\ 5 - x_start <= 10 /\ x_end - (5 + 60) <= 10
  /\ 700 - y_start <= 10 /\ y_end - (700 + 20) <= 10.
Proof.
  apply (enhance_barcode_region_bounds_inside 720 1280 5 700 60 20); lia.
Defined.
